(** * Enhanced Thermostat: schedule, safety guard, runtime ledger and store

    A shallow embedding of the Home Assistant integration
    [custom_components/enhanced_thermostat] (modules [schedule.py],
    [climate.py] and [store.py]) and the properties of its natural-language
    specification that can be settled on it.

    Conventions of the embedding.
    - A method that mutates [self] is a computation in the monad [M S],
      [S -> outcome A * S]: it returns or raises, and leaves a state either way.
    - Python numbers ([float] temperatures and hour totals, [int] zeros) are
      exact rationals [Q]; rounding of binary floating point is outside the
      model.
    - A naive [datetime] is the number of microseconds since
      0001-01-01T00:00:00, a [time] the number of microseconds since midnight.
    - Values produced by [yaml.safe_load] are the inductive type [value];
      a [dict] is an insertion-ordered association list, as in Python.
    - The runtime ledger, keyed by ISO day, is a [gmap string runtime_entry].
    - A coroutine is the computation of its body; [await] runs it, and a call
      that is neither awaited nor turned into a task runs nothing.
    - A global name is looked up in the namespace its module builds from its
      imports and top-level definitions, and raises [NameError] when absent.
    - The host's service registry, PyYAML and the [json] module are outside
      the repository: service calls are put on record, [yaml.safe_load] and
      the JSON codec are parameters. *)

From Stdlib Require Import ZArith QArith Lia List Bool Ascii String Sorted.
From stdpp Require Import base option gmap strings list fin_maps.
Import ListNotations.

Set Warnings "-register-all".

Local Open Scope string_scope.
Local Open Scope list_scope.
Local Open Scope Z_scope.

(* ===================================================================== *)
(** ** Python runtime: exceptions, outcomes and the state monad           *)
(* ===================================================================== *)

Inductive exn : Type :=
| NameError (name : string)
| TypeError (what : string)
| ValueError (what : string)
| KeyError (key : string)
| AttributeError (what : string).

Inductive outcome (A : Type) : Type :=
| Returned (a : A)
| Raised (e : exn).
Arguments Returned {A} a.
Arguments Raised {A} e.

Definition M (S A : Type) : Type := S -> outcome A * S.

Definition ret {S A} (a : A) : M S A := fun s => (Returned a, s).

Definition raise {S A} (e : exn) : M S A := fun s => (Raised e, s).

Definition bind {S A B} (c : M S A) (k : A -> M S B) : M S B :=
  fun s =>
    match c s with
    | (Returned a, s') => k a s'
    | (Raised e, s') => (Raised e, s')
    end.

Definition get {S} : M S S := fun s => (Returned s, s).

Definition put {S} (s : S) : M S unit := fun _ => (Returned tt, s).

Definition modify {S} (f : S -> S) : M S unit := fun s => (Returned tt, f s).

Declare Scope py_scope.
Delimit Scope py_scope with py.
Notation "'do' x <- c ;; k" := (bind c (fun x => k))
  (at level 10, x name, c at level 99, k at level 200) : py_scope.
Local Open Scope py_scope.

(** Runs a computation on a component [get_c s] of a larger state and writes
    the component back, as a method call on an attribute of [self] does. *)
Definition zoom {S C A} (get_c : S -> C) (set_c : C -> S -> S) (c : M C A) : M S A :=
  fun s =>
    match c (get_c s) with
    | (o, c') => (o, set_c c' s)
    end.

(** A call [f(...)] of an [async def] evaluates the arguments and builds a
    coroutine object; the body runs when the object is awaited. *)
Definition coroutine (S A : Type) : Type := M S A.

Definition await {S A} (c : coroutine S A) : M S A := c.

(** An expression statement [f(...)] on an [async def], inside a plain [def],
    with no [await] and no task created from it: the coroutine object is
    built and dropped, its body never starts. *)
Definition never_awaited {S S' A} (c : coroutine S' A) : M S unit := ret tt.

(** [mapM f l]: the calls [f x] for the elements of [l] in order, stopping at
    the first that raises. *)
Fixpoint mapM {S A B} (f : A -> M S B) (l : list A) : M S (list B) :=
  match l with
  | [] => ret []
  | x :: l' => do y <- f x ;; do ys <- mapM f l' ;; ret (y :: ys)
  end.

(* ===================================================================== *)
(** ** Python values                                                      *)
(* ===================================================================== *)

(** What [yaml.safe_load] can produce, and what a service call carries. *)
Inductive value : Type :=
| PNone
| PBool (b : bool)
| PInt (n : Z)
| PFloat (q : Q)
| PStr (s : string)
| PList (l : list value)
| PDict (d : list (string * value)).

Abbreviation dict := (list (string * value)).

(** [k in d] and [d.get(k)]. *)
Fixpoint dict_get (d : dict) (k : string) : option value :=
  match d with
  | [] => None
  | (k', v) :: d' => if String.eqb k k' then Some v else dict_get d' k
  end.

Definition dict_contains (d : dict) (k : string) : bool :=
  match dict_get d k with Some _ => true | None => false end.

(** [bool(v)]. *)
Definition truthy (v : value) : bool :=
  match v with
  | PNone => false
  | PBool b => b
  | PInt n => negb (n =? 0)
  | PFloat q => negb (Qeq_bool q 0)
  | PStr s => negb (String.eqb s "")
  | PList l => match l with [] => false | _ => true end
  | PDict d => match d with [] => false | _ => true end
  end.

(** The number a value denotes under [==], when it is one ([bool] is a
    subclass of [int]). *)
Definition as_number (v : value) : option Q :=
  match v with
  | PBool b => Some (if b then 1%Q else 0%Q)
  | PInt n => Some (inject_Z n)
  | PFloat q => Some q
  | _ => None
  end.

(* ===================================================================== *)
(** ** datetime                                                           *)
(* ===================================================================== *)

Definition datetime : Type := Z.
Definition time : Type := Z.

Definition US_PER_SECOND : Z := 1000000.
Definition US_PER_MINUTE : Z := 60 * US_PER_SECOND.
Definition US_PER_HOUR : Z := 60 * US_PER_MINUTE.
Definition US_PER_DAY : Z := 24 * US_PER_HOUR.

(** [timedelta(days=n)]. *)
Definition timedelta_days (n : Z) : Z := n * US_PER_DAY.

(** [time(hour, minute)]. *)
Definition mk_time (hour minute : Z) : time := hour * US_PER_HOUR + minute * US_PER_MINUTE.

(** [d.time()]. *)
Definition datetime_time (d : datetime) : time := d mod US_PER_DAY.

(** [d.toordinal()]: day 1 is 0001-01-01. *)
Definition toordinal (d : datetime) : Z := d / US_PER_DAY + 1.

(** [d.weekday()]: Monday is 0. *)
Definition weekday (d : datetime) : Z := (toordinal d + 6) mod 7.

Definition day_names : list string :=
  ["monday"; "tuesday"; "wednesday"; "thursday"; "friday"; "saturday"; "sunday"].

(** [d.strftime("%A").lower()] in the C locale. *)
Definition strftime_A_lower (d : datetime) : string :=
  nth (Z.to_nat (weekday d)) day_names "monday".

(** [datetime(year, month, day, hour, minute)] from the ordinal of the date. *)
Definition datetime_of (ordinal hour minute : Z) : datetime :=
  (ordinal - 1) * US_PER_DAY + mk_time hour minute.

(** [datetime._ord2ymd] of the standard library: year, month and day of an
    ordinal, by cycles of 400, 100, 4 and 1 years. *)
Definition days_before_month (month : Z) : Z :=
  nth (Z.to_nat month) [0; 0; 31; 59; 90; 120; 151; 181; 212; 243; 273; 304; 334] 0.

Definition days_in_month (month : Z) : Z :=
  nth (Z.to_nat month) [0; 31; 28; 31; 30; 31; 30; 31; 31; 30; 31; 30; 31] 0.

Definition ord2ymd (ordinal : Z) : Z * Z * Z :=
  let n := ordinal - 1 in
  let n400 := n / 146097 in
  let n := n mod 146097 in
  let year := n400 * 400 + 1 in
  let n100 := n / 36524 in
  let n := n mod 36524 in
  let n4 := n / 1461 in
  let n := n mod 1461 in
  let n1 := n / 365 in
  let n := n mod 365 in
  let year := year + n100 * 100 + n4 * 4 + n1 in
  if (n1 =? 4) || (n100 =? 4) then (year - 1, 12, 31)
  else
    let leapyear := (n1 =? 3) && (negb (n4 =? 24) || (n100 =? 3)) in
    let month := Z.shiftr (n + 50) 5 in
    let preceding :=
      days_before_month month + (if (2 <? month) && leapyear then 1 else 0) in
    if n <? preceding then
      let month := month - 1 in
      let preceding :=
        preceding - (days_in_month month + (if (month =? 2) && leapyear then 1 else 0)) in
      (year, month, n - preceding + 1)
    else (year, month, n - preceding + 1).

Definition digit_char (d : Z) : ascii := ascii_of_N (Z.to_N (48 + d mod 10)).

(** [n] in decimal on two and on four digits, zero-padded. *)
Definition pad2 (n : Z) : string :=
  String (digit_char (n / 10)) (String (digit_char n) EmptyString).

Definition pad4 (n : Z) : string :=
  String (digit_char (n / 1000)) (String (digit_char (n / 100)) (pad2 n)).

(** [d.date().isoformat()]. *)
Definition date_isoformat (d : datetime) : string :=
  match ord2ymd (toordinal d) with
  | (y, m, dd) => (pad4 y ++ "-" ++ pad2 m ++ "-" ++ pad2 dd)%string
  end.

(** [(a - b).total_seconds() / 3600]. *)
Definition hours_between (a b : datetime) : Q := Qmake (a - b) 3600000000.

(* ===================================================================== *)
(** ** [datetime.strptime(s, "%H:%M")]                                    *)
(* ===================================================================== *)

Definition is_digit (c : ascii) : bool :=
  let n := Z.of_N (N_of_ascii c) in (48 <=? n) && (n <=? 57).

Definition digit_val (c : ascii) : Z := Z.of_N (N_of_ascii c) - 48.

(** The directive [%H] is the regular expression [2[0-3]|[0-1]\d|\d]: the
    ways it matches a prefix of [s], in the order the alternatives are tried,
    each with the hour and the rest of the string. *)
Definition match_H (s : string) : list (Z * string) :=
  match s with
  | EmptyString => []
  | String c1 EmptyString => if is_digit c1 then [(digit_val c1, EmptyString)] else []
  | String c1 (String c2 r as s1) =>
      (if (digit_val c1 =? 2) && is_digit c2 && (digit_val c2 <=? 3)
       then [(20 + digit_val c2, r)] else [])
      ++ (if is_digit c1 && (digit_val c1 <=? 1) && is_digit c2
          then [(10 * digit_val c1 + digit_val c2, r)] else [])
      ++ (if is_digit c1 then [(digit_val c1, s1)] else [])
  end.

(** The directive [%M] is [[0-5]\d|\d]. *)
Definition match_M (s : string) : list (Z * string) :=
  match s with
  | EmptyString => []
  | String c1 EmptyString => if is_digit c1 then [(digit_val c1, EmptyString)] else []
  | String c1 (String c2 r as s1) =>
      (if is_digit c1 && (digit_val c1 <=? 5) && is_digit c2
       then [(10 * digit_val c1 + digit_val c2, r)] else [])
      ++ (if is_digit c1 then [(digit_val c1, s1)] else [])
  end.

Fixpoint first_match {A B} (f : A -> option B) (l : list A) : option B :=
  match l with
  | [] => None
  | x :: l' => match f x with Some y => Some y | None => first_match f l' end
  end.

(** The first way the whole pattern [%H:%M] matches a prefix of [s], with
    what is left of [s] after it. *)
Definition regex_HM (s : string) : option (Z * Z * string) :=
  first_match
    (fun hr : Z * string =>
       match snd hr with
       | String ":" r =>
           match match_M r with
           | (m, r') :: _ => Some (fst hr, m, r')
           | [] => None
           end
       | _ => None
       end)
    (match_H s).

(** [strptime] raises [ValueError] when the pattern does not match and when
    unconverted data remains after the match; [None] stands for both. *)
Definition strptime_HM (s : string) : option (Z * Z) :=
  match regex_HM s with
  | Some (h, m, EmptyString) => Some (h, m)
  | _ => None
  end.

(* ===================================================================== *)
(** ** schedule.py                                                        *)
(* ===================================================================== *)

Module schedule.

Record Schedule : Type := mkSchedule {
  _schedule : option dict;
  _override_active : bool;
  _override_until : option datetime
}.

(** [v[k]] for a string key. *)
Definition subscript {S} (v : value) (k : string) : M S value :=
  match v with
  | PDict d =>
      match dict_get d k with
      | Some x => ret x
      | None => raise (KeyError k)
      end
  | _ => raise (TypeError "indices must be integers or object is not subscriptable")
  end.

Definition chars (s : string) : list value :=
  map (fun c => PStr (String c EmptyString)) (list_ascii_of_string s).

(** [iter(v)], as [sorted] and [for] consume it. *)
Definition iterate {S} (v : value) : M S (list value) :=
  match v with
  | PList l => ret l
  | PStr s => ret (chars s)
  | PDict d => ret (map (fun kv => PStr (fst kv)) d)
  | _ => raise (TypeError "object is not iterable")
  end.

(** [Schedule._parse_time]. *)
Definition _parse_time {S} (time_str : value) : M S time :=
  match time_str with
  | PStr s =>
      match strptime_HM s with
      | Some (h, m) => ret (mk_time h m)
      | None => raise (ValueError "time data does not match format '%H:%M'")
      end
  | _ => raise (TypeError "strptime() argument 1 must be str")
  end.

Section Parse.

(** [yaml.safe_load] of PyYAML: the value a text denotes, [None] when it
    raises [yaml.YAMLError]. Mapping keys are taken to be strings. *)
Variable safe_load : string -> option value.

(** The test of line 39 on one event. *)
Definition event_ok (event : value) : bool :=
  match event with
  | PDict e => dict_contains e "time"
  | _ => false
  end.

(** The body of the loop of line 34 on one item. *)
Definition day_ok (item : string * value) : bool :=
  match snd item with
  | PList events => forallb event_ok events
  | _ => false
  end.

(** [Schedule._parse_schedule]; the messages sent to the logger are left out. *)
Definition _parse_schedule (schedule_yaml : option string) : option dict :=
  match schedule_yaml with
  | None => None
  | Some text =>
      if String.eqb text "" then None
      else
        match safe_load text with
        | None => None
        | Some (PDict schedule) =>
            if forallb day_ok schedule then Some schedule else None
        | Some _ => None
        end
  end.

(** [Schedule.__init__]. *)
Definition Schedule_init (schedule_yaml : option string) : Schedule :=
  {| _schedule := _parse_schedule schedule_yaml;
     _override_active := false;
     _override_until := None |}.

End Parse.

(** [sorted(..., key=...)] on the list of keys paired with their items: a
    stable sort that compares keys with [<] only. *)
Fixpoint insert_by_key (x : time * value) (l : list (time * value)) : list (time * value) :=
  match l with
  | [] => [x]
  | y :: l' => if fst y <? fst x then y :: insert_by_key x l' else x :: y :: l'
  end.

Fixpoint sort_by_key (l : list (time * value)) : list (time * value) :=
  match l with
  | [] => []
  | x :: l' => insert_by_key x (sort_by_key l')
  end.

(** The key function of line 62. *)
Definition event_key {S} (x : value) : M S time :=
  do t <- subscript x "time" ;; _parse_time t.

(** [sorted(items, key=lambda x: self._parse_time(x["time"]))]: every key is
    computed, in the order of the items, before the sort starts. *)
Definition sorted_events {S} (items : value) : M S (list value) :=
  do l <- iterate items ;;
  do keys <- mapM event_key l ;;
  ret (map snd (sort_by_key (combine keys l))).

(** The loop of lines 63 to 68. *)
Fixpoint scan_events {S} (now_time : time) (events : list value)
    (current_event : option value) : M S (option value) :=
  match events with
  | [] => ret current_event
  | event :: rest =>
      do t <- event_key event ;;
      if t <=? now_time then scan_events now_time rest (Some event)
      else ret current_event
  end.

(** The test of line 52. A [datetime] is always truthy. *)
Definition override_in_force (self : Schedule) (now : datetime) : bool :=
  _override_active self
  && match _override_until self with
     | Some until => now <? until
     | None => false
     end.

Definition clear_override (self : Schedule) : Schedule :=
  {| _schedule := _schedule self; _override_active := false; _override_until := None |}.

(** [Schedule.get_current_setpoint]. The test [not self._schedule] of line 49
    holds of [None] and of the empty dict. *)
Definition get_current_setpoint (now : datetime) : M Schedule (option value) :=
  do self <- get ;;
  match _schedule self with
  | None => ret None
  | Some schedule =>
      if negb (truthy (PDict schedule)) then ret None
      else if override_in_force self now then ret None
      else
        do _ <- put (clear_override self) ;;
        let day_name := strftime_A_lower now in
        match dict_get schedule day_name with
        | None => ret None
        | Some day_events =>
            do events <- sorted_events day_events ;;
            scan_events (datetime_time now) events None
        end
  end.

(** [Schedule.set_override]. *)
Definition set_override (until : datetime) : M Schedule unit :=
  modify (fun self =>
    {| _schedule := _schedule self; _override_active := true; _override_until := Some until |}).

End schedule.

(** The schedule of the specification's scenario, as [yaml.safe_load] returns it. *)
Definition scenario_schedule : dict :=
  [("monday",
    PList [PDict [("time", PStr "06:00"); ("temperature", PInt 20)];
           PDict [("time", PStr "22:00"); ("temperature", PInt 17)]])].

(** Monday 2024-01-01 is day 738886 of the proleptic Gregorian calendar. *)
Definition monday_at (hour minute : Z) : datetime := datetime_of 738886 hour minute.

Definition scenario_object : schedule.Schedule :=
  {| schedule._schedule := Some scenario_schedule;
     schedule._override_active := false;
     schedule._override_until := None |}.

(** A loaded schedule with no weekday, under an override that expired at 07:00. *)
Definition empty_schedule_object : schedule.Schedule :=
  {| schedule._schedule := Some [];
     schedule._override_active := true;
     schedule._override_until := Some (monday_at 7 0) |}.

(** A definition whose only event carries a time that is no time of day. *)
Definition bad_time_schedule : dict :=
  [("monday", PList [PDict [("time", PStr "25:00"); ("temperature", PInt 20)]])].

(** The time of day an event carries, when it is a mapping whose time field
    is a string that parses. *)
Definition event_time (e : value) : option time :=
  match e with
  | PDict d =>
      match dict_get d "time" with
      | Some (PStr s) =>
          match strptime_HM s with
          | Some (h, m) => Some (mk_time h m)
          | None => None
          end
      | _ => None
      end
  | _ => None
  end.

(** The loop of lines 63 to 68 on events paired with their times. *)
Fixpoint scan_keyed (now_time : time) (l : list (time * value))
    (current_event : option value) : option value :=
  match l with
  | [] => current_event
  | p :: rest =>
      if fst p <=? now_time then scan_keyed now_time rest (Some (snd p))
      else current_event
  end.

Definition keyed (p : time * value) : Prop := event_time (snd p) = Some (fst p).

Definition key_le (p q : time * value) : Prop := fst p <= fst q.

(** The structural violations the loader looks for, in the words of the
    specification: the top level is not a mapping, a weekday's value is not a
    sequence, an event is not a mapping, an event has no time field. *)
Inductive violation : value -> Prop :=
| top_level_not_mapping (v : value) :
    (forall d, v <> PDict d) -> violation v
| day_not_sequence (d : dict) (day : string) (events : value) :
    In (day, events) d -> (forall l, events <> PList l) -> violation (PDict d)
| event_not_mapping (d : dict) (day : string) (l : list value) (e : value) :
    In (day, PList l) d -> In e l -> (forall m, e <> PDict m) -> violation (PDict d)
| event_without_time (d : dict) (day : string) (l : list value) (m : dict) :
    In (day, PList l) d -> In (PDict m) l -> dict_get m "time" = None ->
    violation (PDict d).


(* ===================================================================== *)
(** ** store.py                                                           *)
(* ===================================================================== *)

(** One day of the runtime ledger:
    [{"heating_hours": ..., "cooling_hours": ...}]. *)
Record runtime_entry : Type := mkEntry {
  heating_hours : Q;
  cooling_hours : Q
}.

(** The [json] module of the standard library on ledgers: what a file
    holds, the text [json.dump] writes and the value [json.load] reads, [None]
    when it raises [json.JSONDecodeError]. *)
Class Json : Type := mkJson {
  document : Type;
  json_dump : gmap string runtime_entry -> document;
  json_load : document -> option (gmap string runtime_entry)
}.

Module store.

Section WithJson.

Context `{Json}.

(** The file system: the files that exist, and the paths [open(path, "w")]
    refuses with an [IOError]. *)
Record FileSystem : Type := mkFS {
  files : gmap string document;
  refused : string -> bool
}.

Record Store : Type := mkStore {
  _storage_path : string;
  _data : gmap string runtime_entry
}.

Definition set_data (d : gmap string runtime_entry) (self : Store) : Store :=
  {| _storage_path := _storage_path self; _data := d |}.

(** [Store.async_load]. A missing file and a file that is not JSON both
    give the empty ledger. *)
Definition async_load : coroutine (Store * FileSystem) (gmap string runtime_entry) :=
  do w <- get ;;
  let self := fst w in
  let fs := snd w in
  let loaded :=
    match files fs !! _storage_path self with
    | None => ∅
    | Some doc =>
        match json_load doc with
        | Some d => d
        | None => ∅
        end
    end in
  do _ <- put (set_data loaded self, fs) ;;
  ret loaded.

(** [Store.async_save]. The [IOError] of [open] is logged and swallowed. *)
Definition async_save (data : gmap string runtime_entry) : coroutine (Store * FileSystem) unit :=
  do w <- get ;;
  let self := set_data data (fst w) in
  let fs := snd w in
  if refused fs (_storage_path self) then put (self, fs)
  else
    put (self, {| files := <[_storage_path self := json_dump data]> (files fs);
                  refused := refused fs |}).

End WithJson.

End store.

(** A codec that keeps a ledger as the list of its items. *)
Definition items_dump (d : gmap string runtime_entry) : list (string * runtime_entry) :=
  map_to_list d.

Definition items_load (doc : list (string * runtime_entry)) : option (gmap string runtime_entry) :=
  Some (list_to_map doc).

#[export] Instance items_json : Json :=
  {| document := list (string * runtime_entry);
     json_dump := items_dump;
     json_load := items_load |}.

(** A ledger, a store and two disks for the examples. *)
Definition example_ledger : gmap string runtime_entry :=
  {[ "2024-01-01" := {| heating_hours := 3 # 2; cooling_hours := 0 |} ]}.

Definition example_store : store.Store :=
  {| store._storage_path := ".storage/enhanced_thermostat_entry_runtime"; store._data := ∅ |}.

Definition writable_disk : store.FileSystem :=
  {| store.files := ∅; store.refused := fun _ => false |}.

Definition read_only_disk : store.FileSystem :=
  {| store.files := ∅; store.refused := fun _ => true |}.

(* ===================================================================== *)
(** ** climate.py                                                         *)
(* ===================================================================== *)

Definition Qltb (a b : Q) : bool := negb (Qle_bool b a).

Definition lower_ascii (c : ascii) : ascii :=
  let n := N_of_ascii c in
  if ((65 <=? n) && (n <=? 90))%N then ascii_of_N (n + 32) else c.

(** [s.lower()] on ASCII text. *)
Definition lower (s : string) : string :=
  string_of_list_ascii (map lower_ascii (list_ascii_of_string s)).

Module climate.

(** [homeassistant.components.climate.HVACMode], the string enumeration of
    the host platform. *)
Inductive HVACMode : Type := OFF | HEAT | COOL | HEAT_COOL | AUTO | DRY | FAN_ONLY.

Definition HVACMode_value (m : HVACMode) : string :=
  match m with
  | OFF => "off"
  | HEAT => "heat"
  | COOL => "cool"
  | HEAT_COOL => "heat_cool"
  | AUTO => "auto"
  | DRY => "dry"
  | FAN_ONLY => "fan_only"
  end.

(** [HVACMode(s)]: the member whose value is [s], or [ValueError]. *)
Definition HVACMode_of {S} (s : string) : M S HVACMode :=
  match List.find (fun m => String.eqb (HVACMode_value m) s)
                  [OFF; HEAT; COOL; HEAT_COOL; AUTO; DRY; FAN_ONLY] with
  | Some m => ret m
  | None => raise (ValueError "is not a valid HVACMode")
  end.

(** The values of [HVACAction] the module names. *)
Definition HVACAction_HEATING : string := "heating".
Definition HVACAction_COOLING : string := "cooling".

(** Hysteresis buffer to prevent rapid cycling (line 30). *)
Definition HYSTERESIS_BUFFER : Q := 1.

(** The names bound in the module's namespace when its functions run: the
    imports of lines 2 to 25 and the definitions at module level. Builtins
    are looked up after it; none of them is called [datetime]. *)
Definition module_globals : list string :=
  ["annotations"; "logging";
   "ClimateEntity"; "ClimateEntityFeature"; "HVACAction"; "HVACMode";
   "ConfigEntry"; "ATTR_TEMPERATURE"; "Platform"; "HomeAssistant"; "callback";
   "AddEntitiesCallback"; "timedelta";
   "async_track_state_change_event"; "async_track_time_interval";
   "DOMAIN"; "Schedule"; "Store";
   "_LOGGER"; "HYSTERESIS_BUFFER"; "async_setup_entry"; "EnhancedThermostat"].

(** Evaluation of a global name. *)
Definition load_global {S} (name : string) : M S unit :=
  if existsb (String.eqb name) module_globals then ret tt
  else raise (NameError name).

(** The state object of the underlying thermostat: its [state] and the
    attributes the module reads with [attributes.get]. *)
Record State : Type := mkState {
  state : string;
  attr_current_temperature : option Q;
  attr_temperature : option Q;
  attr_hvac_action : option string;
  attr_temperature_unit : option string;
  attr_supported_features : option Z
}.

(** The pieces of an f-string: literal text and formatted numbers. *)
Inductive fragment : Type :=
| Text (s : string)
| Fmt (q : Q).

Inductive service_data : Type :=
| SetTemperature (entity_id : string) (temperature : value)
| SetHvacMode (entity_id : string) (hvac_mode : HVACMode)
| CreateNotification (title : string) (message : list fragment) (notification_id : string).

(** One call of [hass.services.async_call], and whether its result was awaited. *)
Record ServiceCall : Type := mkCall {
  domain : string;
  service : string;
  data : service_data;
  blocking : bool;
  awaited : bool
}.

Section WithHost.

Context `{Json}.

(** The constant [DOMAIN] of the module [const]. *)
Variable DOMAIN : string.

Record EnhancedThermostat : Type := mkEntity {
  _thermostat_entity_id : string;
  _underlying_thermostat_state : option State;
  _attr_supported_features : option Z;
  _safety_min_temp : option Q;
  _safety_max_temp : option Q;
  _safety_active : bool;
  _safety_triggered_mode : option HVACMode;
  _schedule : schedule.Schedule;
  _store : option store.Store;
  _runtime_data : gmap string runtime_entry;
  _last_hvac_action : option string;
  _last_action_timestamp : option datetime
}.

(** [EnhancedThermostat.__init__]; [safe_load] is what the schedule's
    constructor parses with. *)
Definition EnhancedThermostat_init (safe_load : string -> option value)
    (thermostat_entity_id : string) (safety_min_temp safety_max_temp : option Q)
    (schedule_yaml : option string) : EnhancedThermostat :=
  {| _thermostat_entity_id := thermostat_entity_id;
     _underlying_thermostat_state := None;
     _attr_supported_features := Some 0;
     _safety_min_temp := safety_min_temp;
     _safety_max_temp := safety_max_temp;
     _safety_active := false;
     _safety_triggered_mode := None;
     _schedule := schedule.Schedule_init safe_load schedule_yaml;
     _store := None;
     _runtime_data := ∅;
     _last_hvac_action := None;
     _last_action_timestamp := None |}.

(** The entity within its host: the calls made on the service registry
    (oldest first), the wall clock and the file system. *)
Record Hass : Type := mkHass {
  entity : EnhancedThermostat;
  service_calls : list ServiceCall;
  wall_clock : datetime;
  file_system : store.FileSystem
}.

Definition set_entity (e : EnhancedThermostat) (w : Hass) : Hass :=
  {| entity := e; service_calls := service_calls w;
     wall_clock := wall_clock w; file_system := file_system w |}.

Definition set_underlying (st : option State) (features : option Z)
    (e : EnhancedThermostat) : EnhancedThermostat :=
  {| _thermostat_entity_id := _thermostat_entity_id e;
     _underlying_thermostat_state := st;
     _attr_supported_features := features;
     _safety_min_temp := _safety_min_temp e;
     _safety_max_temp := _safety_max_temp e;
     _safety_active := _safety_active e;
     _safety_triggered_mode := _safety_triggered_mode e;
     _schedule := _schedule e;
     _store := _store e;
     _runtime_data := _runtime_data e;
     _last_hvac_action := _last_hvac_action e;
     _last_action_timestamp := _last_action_timestamp e |}.

Definition set_safety (active : bool) (mode : option HVACMode)
    (e : EnhancedThermostat) : EnhancedThermostat :=
  {| _thermostat_entity_id := _thermostat_entity_id e;
     _underlying_thermostat_state := _underlying_thermostat_state e;
     _attr_supported_features := _attr_supported_features e;
     _safety_min_temp := _safety_min_temp e;
     _safety_max_temp := _safety_max_temp e;
     _safety_active := active;
     _safety_triggered_mode := mode;
     _schedule := _schedule e;
     _store := _store e;
     _runtime_data := _runtime_data e;
     _last_hvac_action := _last_hvac_action e;
     _last_action_timestamp := _last_action_timestamp e |}.

Definition set_schedule (s : schedule.Schedule)
    (e : EnhancedThermostat) : EnhancedThermostat :=
  {| _thermostat_entity_id := _thermostat_entity_id e;
     _underlying_thermostat_state := _underlying_thermostat_state e;
     _attr_supported_features := _attr_supported_features e;
     _safety_min_temp := _safety_min_temp e;
     _safety_max_temp := _safety_max_temp e;
     _safety_active := _safety_active e;
     _safety_triggered_mode := _safety_triggered_mode e;
     _schedule := s;
     _store := _store e;
     _runtime_data := _runtime_data e;
     _last_hvac_action := _last_hvac_action e;
     _last_action_timestamp := _last_action_timestamp e |}.

Definition set_runtime_data (d : gmap string runtime_entry)
    (e : EnhancedThermostat) : EnhancedThermostat :=
  {| _thermostat_entity_id := _thermostat_entity_id e;
     _underlying_thermostat_state := _underlying_thermostat_state e;
     _attr_supported_features := _attr_supported_features e;
     _safety_min_temp := _safety_min_temp e;
     _safety_max_temp := _safety_max_temp e;
     _safety_active := _safety_active e;
     _safety_triggered_mode := _safety_triggered_mode e;
     _schedule := _schedule e;
     _store := _store e;
     _runtime_data := d;
     _last_hvac_action := _last_hvac_action e;
     _last_action_timestamp := _last_action_timestamp e |}.

Definition set_last (action : option string) (timestamp : option datetime)
    (e : EnhancedThermostat) : EnhancedThermostat :=
  {| _thermostat_entity_id := _thermostat_entity_id e;
     _underlying_thermostat_state := _underlying_thermostat_state e;
     _attr_supported_features := _attr_supported_features e;
     _safety_min_temp := _safety_min_temp e;
     _safety_max_temp := _safety_max_temp e;
     _safety_active := _safety_active e;
     _safety_triggered_mode := _safety_triggered_mode e;
     _schedule := _schedule e;
     _store := _store e;
     _runtime_data := _runtime_data e;
     _last_hvac_action := action;
     _last_action_timestamp := timestamp |}.

(** Reads of and assignments to attributes of [self]. *)
Definition self_ : M Hass EnhancedThermostat :=
  do w <- get ;; ret (entity w).

Definition assign (f : EnhancedThermostat -> EnhancedThermostat) : M Hass unit :=
  modify (fun w => set_entity (f (entity w)) w).

(** A method call on [self._schedule]. *)
Definition on_schedule {A} (c : M schedule.Schedule A) : M Hass A :=
  zoom (fun w => _schedule (entity w))
       (fun s w => set_entity (set_schedule s (entity w)) w) c.

Definition record_call (call : ServiceCall) (w : Hass) : Hass :=
  {| entity := entity w; service_calls := service_calls w ++ [call];
     wall_clock := wall_clock w; file_system := file_system w |}.

(** [hass.services.async_call(domain, service, data, blocking)]: the call is
    put on record; what the registry does with it is the host's. *)
Definition services_async_call (call : ServiceCall) : M Hass unit :=
  modify (record_call call).

(** [datetime.now()]: the name [datetime] is looked up in the module's
    namespace, then the wall clock is read. *)
Definition datetime_now : M Hass datetime :=
  do _ <- load_global "datetime" ;;
  do w <- get ;;
  ret (wall_clock w).

(** The properties of lines 99 to 125. *)
Definition current_temperature (self : EnhancedThermostat) : option Q :=
  match _underlying_thermostat_state self with
  | Some st => attr_current_temperature st
  | None => None
  end.

Definition target_temperature (self : EnhancedThermostat) : option Q :=
  match _underlying_thermostat_state self with
  | Some st => attr_temperature st
  | None => None
  end.

Definition hvac_mode (self : EnhancedThermostat) : option string :=
  match _underlying_thermostat_state self with
  | Some st => Some (state st)
  | None => Some (HVACMode_value OFF)
  end.

Definition hvac_action (self : EnhancedThermostat) : option string :=
  match _underlying_thermostat_state self with
  | Some st => attr_hvac_action st
  | None => Some "off"
  end.

(** [_get_next_schedule_time]. *)
Definition _get_next_schedule_time : M Hass datetime :=
  do now <- datetime_now ;;
  ret (now + timedelta_days 1).

(** [async_set_temperature(temperature=...)]; a missing keyword is [PNone]. *)
Definition async_set_temperature (temperature : value) : coroutine Hass unit :=
  do until <- _get_next_schedule_time ;;
  do _ <- on_schedule (schedule.set_override until) ;;
  do self <- self_ ;;
  await (services_async_call
           {| domain := "climate"; service := "set_temperature";
              data := SetTemperature (_thermostat_entity_id self) temperature;
              blocking := true; awaited := true |}).

(** [async_set_hvac_mode]. *)
Definition async_set_hvac_mode (mode : HVACMode) : coroutine Hass unit :=
  do until <- _get_next_schedule_time ;;
  do _ <- on_schedule (schedule.set_override until) ;;
  do self <- self_ ;;
  await (services_async_call
           {| domain := "climate"; service := "set_hvac_mode";
              data := SetHvacMode (_thermostat_entity_id self) mode;
              blocking := true; awaited := true |}).

(** The call [_create_notification] makes: its result is not awaited. *)
Definition notification (message : list fragment) : ServiceCall :=
  {| domain := "persistent_notification"; service := "create";
     data := CreateNotification "Enhanced Thermostat Safety Alert" message
               (DOMAIN ++ "_safety_alert")%string;
     blocking := false; awaited := false |}.

(** [_create_notification]. *)
Definition _create_notification (message : list fragment) : M Hass unit :=
  services_async_call (notification message).

(** [a == m] for the state string [a] and the member (or [None]) [m]. *)
Definition mode_is (a : string) (m : option HVACMode) : bool :=
  match m with
  | Some m => String.eqb a (HVACMode_value m)
  | None => false
  end.

Definition triggered_is (t : option HVACMode) (m : HVACMode) : bool :=
  match t with
  | Some m' => String.eqb (HVACMode_value m') (HVACMode_value m)
  | None => false
  end.

(** [bound + HYSTERESIS_BUFFER] and [bound - HYSTERESIS_BUFFER]; [None]
    is no operand of [+] and [-]. *)
Definition plus_buffer (bound : option Q) : M Hass Q :=
  match bound with
  | Some b => ret (b + HYSTERESIS_BUFFER)%Q
  | None => raise (TypeError "unsupported operand type(s) for +: 'NoneType' and 'float'")
  end.

Definition minus_buffer (bound : option Q) : M Hass Q :=
  match bound with
  | Some b => ret (b - HYSTERESIS_BUFFER)%Q
  | None => raise (TypeError "unsupported operand type(s) for -: 'NoneType' and 'float'")
  end.

(** The conditions of lines 189 and 194; [and] evaluates its right operand
    only when the left one holds. *)
Definition heat_recovered (self : EnhancedThermostat) (temp : Q) : M Hass bool :=
  if triggered_is (_safety_triggered_mode self) HEAT then
    do limit <- plus_buffer (_safety_min_temp self) ;;
    ret (Qle_bool limit temp)
  else ret false.

Definition cool_recovered (self : EnhancedThermostat) (temp : Q) : M Hass bool :=
  if triggered_is (_safety_triggered_mode self) COOL then
    do limit <- minus_buffer (_safety_max_temp self) ;;
    ret (Qle_bool temp limit)
  else ret false.

(** The conditions of lines 203 and 211, with the bound they found. *)
Definition below_min (self : EnhancedThermostat) (temp : Q) : option Q :=
  match _safety_min_temp self with
  | Some lo => if Qltb temp lo then Some lo else None
  | None => None
  end.

Definition above_max (self : EnhancedThermostat) (temp : Q) : option Q :=
  match _safety_max_temp self with
  | Some hi => if Qltb hi temp then Some hi else None
  | None => None
  end.

(** The messages of lines 185, 193, 198, 209 and 217. *)
Definition msg_manual_override : list fragment :=
  [Text "Safety mode deactivated due to manual override."].

Definition msg_heating_off (temp : Q) : list fragment :=
  [Text "Safety heating turned off. Temperature is now "; Fmt temp; Text "°."].

Definition msg_cooling_off (temp : Q) : list fragment :=
  [Text "Safety cooling turned off. Temperature is now "; Fmt temp; Text "°."].

Definition msg_heating_on (temp target : Q) : list fragment :=
  [Text "Safety heating activated. Current temperature is "; Fmt temp;
   Text "°, target is "; Fmt target; Text "°."].

Definition msg_cooling_on (temp target : Q) : list fragment :=
  [Text "Safety cooling activated. Current temperature is "; Fmt temp;
   Text "°, target is "; Fmt target; Text "°."].

(** [_async_check_safety_temp], a plain [def]: its calls of the coroutine
    functions [async_set_hvac_mode] and [async_set_temperature] are
    expression statements. *)
Definition _async_check_safety_temp : M Hass unit :=
  do self <- self_ ;;
  match hvac_mode self, current_temperature self with
  | None, _ => ret tt
  | _, None => ret tt
  | Some mode, Some temp =>
      if _safety_active self then
        if negb (mode_is mode (_safety_triggered_mode self)) then
          do _ <- assign (set_safety false None) ;;
          _create_notification msg_manual_override
        else
          do heat_done <- heat_recovered self temp ;;
          if heat_done then
            do _ <- never_awaited (async_set_hvac_mode OFF) ;;
            do _ <- assign (set_safety false None) ;;
            _create_notification (msg_heating_off temp)
          else
            do cool_done <- cool_recovered self temp ;;
            if cool_done then
              do _ <- never_awaited (async_set_hvac_mode OFF) ;;
              do _ <- assign (set_safety false None) ;;
              _create_notification (msg_cooling_off temp)
            else ret tt
      else if String.eqb mode (HVACMode_value OFF) then
        match below_min self temp with
        | Some lo =>
            do _ <- assign (set_safety true (Some HEAT)) ;;
            do _ <- never_awaited (async_set_hvac_mode HEAT) ;;
            do _ <- never_awaited (async_set_temperature (PFloat lo)) ;;
            _create_notification (msg_heating_on temp lo)
        | None =>
            match above_max self temp with
            | Some hi =>
                do _ <- assign (set_safety true (Some COOL)) ;;
                do _ <- never_awaited (async_set_hvac_mode COOL) ;;
                do _ <- never_awaited (async_set_temperature (PFloat hi)) ;;
                _create_notification (msg_cooling_on temp hi)
            | None => ret tt
            end
        end
      else ret tt
  end.

(** [v.get(k)] on a setpoint. *)
Definition value_get (v : value) (k : string) : M Hass value :=
  match v with
  | PDict d => ret (default PNone (dict_get d k))
  | _ => raise (AttributeError "object has no attribute 'get'")
  end.

(** [v.lower()]. *)
Definition value_lower (v : value) : M Hass string :=
  match v with
  | PStr s => ret (lower s)
  | _ => raise (AttributeError "object has no attribute 'lower'")
  end.

(** [v != a] for the state string (or [None]) [a]. *)
Definition differs_from_mode (v : value) (a : option string) : bool :=
  match v, a with
  | PStr s, Some s' => negb (String.eqb s s')
  | PNone, None => false
  | _, _ => true
  end.

(** [v != t] for the target temperature (or [None]) [t]. *)
Definition differs_from_temperature (v : value) (t : option Q) : bool :=
  match as_number v, t with
  | Some a, Some b => negb (Qeq_bool a b)
  | _, _ => match v, t with PNone, None => false | _, _ => true end
  end.

(** [_async_apply_schedule], the coroutine the timer runs every minute. *)
Definition _async_apply_schedule (now : datetime) : coroutine Hass unit :=
  do setpoint <- on_schedule (schedule.get_current_setpoint now) ;;
  match setpoint with
  | None => ret tt
  | Some setpoint =>
      if truthy setpoint then
        do target_temp <- value_get setpoint "temperature" ;;
        do mode <- value_get setpoint "hvac_mode" ;;
        do self <- self_ ;;
        do _ <-
          (if truthy mode && differs_from_mode mode (hvac_mode self) then
             do name <- value_lower mode ;;
             do member <- HVACMode_of name ;;
             await (async_set_hvac_mode member)
           else ret tt) ;;
        do self <- self_ ;;
        if truthy target_temp
           && differs_from_temperature target_temp (target_temperature self) then
          await (async_set_temperature target_temp)
        else ret tt
      else ret tt
  end.

Definition new_entry : runtime_entry := {| heating_hours := 0; cooling_hours := 0 |}.

Definition add_heating (duration : Q) (e : runtime_entry) : runtime_entry :=
  {| heating_hours := heating_hours e + duration; cooling_hours := cooling_hours e |}.

Definition add_cooling (duration : Q) (e : runtime_entry) : runtime_entry :=
  {| heating_hours := heating_hours e; cooling_hours := cooling_hours e + duration |}.

(** Lines 250 to 256 on the ledger. *)
Definition accrue (today : string) (last : string) (duration : Q)
    (ledger : gmap string runtime_entry) : gmap string runtime_entry :=
  let ledger :=
    match ledger !! today with
    | Some _ => ledger
    | None => <[today := new_entry]> ledger
    end in
  if String.eqb last HVACAction_HEATING then alter (add_heating duration) today ledger
  else if String.eqb last HVACAction_COOLING then alter (add_cooling duration) today ledger
  else ledger.

(** Lines 243 to 261 of [_async_update_runtime], once [now] is bound. The
    call of the coroutine function [Store.async_save] is an expression
    statement. *)
Definition update_runtime_at (now : datetime) (new_state : State) : M Hass unit :=
  let today := date_isoformat now in
  let current_hvac_action := attr_hvac_action new_state in
  do self <- self_ ;;
  do _ <-
    match _last_hvac_action self, _last_action_timestamp self with
    | Some last, Some timestamp =>
        if truthy (PStr last) then
          if negb (bool_decide (current_hvac_action = Some last)) then
            let duration := hours_between now timestamp in
            do _ <- assign (set_runtime_data
                              (accrue today last duration (_runtime_data self))) ;;
            do self <- self_ ;;
            match _store self with
            | Some st => never_awaited (store.async_save (_runtime_data self))
            | None => raise (AttributeError "'NoneType' object has no attribute 'async_save'")
            end
          else ret tt
        else ret tt
    | _, _ => ret tt
    end ;;
  assign (set_last current_hvac_action (Some now)).

(** [_async_update_runtime]. *)
Definition _async_update_runtime (new_state : State) : M Hass unit :=
  do now <- datetime_now ;;
  update_runtime_at now new_state.

(** [_async_update_underlying_thermostat] on [event.data.get("new_state")];
    [async_write_ha_state] is the host's. *)
Definition _async_update_underlying_thermostat (new_state : option State) : M Hass unit :=
  match new_state with
  | None => ret tt
  | Some st =>
      do _ <- assign (set_underlying (Some st) (attr_supported_features st)) ;;
      do _ <- _async_update_runtime st ;;
      _async_check_safety_temp
  end.

(** Computations that make no service call. *)
Definition keeps_calls {A} (c : M Hass A) : Prop :=
  forall w, service_calls (snd (c w)) = service_calls w.

End WithHost.

End climate.

(** A thermostat state for the examples: mode, current temperature, action. *)
Definition example_state (mode : string) (temp : option Q) (action : option string)
    : climate.State :=
  {| climate.state := mode;
     climate.attr_current_temperature := temp;
     climate.attr_temperature := Some 18%Q;
     climate.attr_hvac_action := action;
     climate.attr_temperature_unit := Some "°C";
     climate.attr_supported_features := Some 1 |}.

(** An entity for the examples, with the scenario's schedule and an empty
    ledger. *)
Definition example_entity (st : climate.State) (lo hi : option Q)
    (active : bool) (triggered : option climate.HVACMode)
    (last_action : option string) (last_timestamp : option datetime)
    : climate.EnhancedThermostat :=
  {| climate._thermostat_entity_id := "climate.zwave_thermostat";
     climate._underlying_thermostat_state := Some st;
     climate._attr_supported_features := Some 1;
     climate._safety_min_temp := lo;
     climate._safety_max_temp := hi;
     climate._safety_active := active;
     climate._safety_triggered_mode := triggered;
     climate._schedule := scenario_object;
     climate._store := Some {| store._storage_path := ".storage/runtime"; store._data := ∅ |};
     climate._runtime_data := ∅;
     climate._last_hvac_action := last_action;
     climate._last_action_timestamp := last_timestamp |}.

(** The entity in a host where nothing was called yet, Monday 08:00. *)
Definition example_world (e : climate.EnhancedThermostat) : climate.Hass :=
  {| climate.entity := e;
     climate.service_calls := [];
     climate.wall_clock := monday_at 8 0;
     climate.file_system := {| store.files := ∅; store.refused := fun _ => false |} |}.

Definition example_domain : string := "enhanced_thermostat".

(** A thermostat that became unavailable: its state object carries no
    current temperature. *)
Definition unavailable_world : climate.Hass :=
  example_world
    (example_entity (example_state "unavailable" None None)
       (Some 15%Q) (Some 30%Q) true (Some climate.HEAT) None None).


(* ===================================================================== *)
(** ** sensor.py                                                          *)
(* ===================================================================== *)

Module sensor.

(** The names bound in the module's namespace: here [datetime] is imported
    (line 4). *)
Definition module_globals : list string :=
  ["annotations"; "datetime"; "SensorEntity"; "ConfigEntry"; "HomeAssistant";
   "AddEntitiesCallback"; "DOMAIN"; "async_setup_entry";
   "HeatingRuntimeSensor"; "CoolingRuntimeSensor"].

Definition load_global {S} (name : string) : M S unit :=
  if existsb (String.eqb name) module_globals then ret tt
  else raise (NameError name).

Section WithJson.

Context `{Json}.

(** What the two sensor classes keep: the unique id and the native value. *)
Record RuntimeSensor : Type := mkSensor {
  _attr_unique_id : string;
  _attr_native_value : option Q
}.

(** A sensor with the store object it was given, the disk and the wall
    clock. *)
Record World : Type := mkWorld {
  self : RuntimeSensor;
  _store : store.Store;
  disk : store.FileSystem;
  wall_clock : datetime
}.

(** [HeatingRuntimeSensor.__init__] and [CoolingRuntimeSensor.__init__]. *)
Definition HeatingRuntimeSensor_init (entry_id : string) : RuntimeSensor :=
  {| _attr_unique_id := (entry_id ++ "_heating_runtime")%string;
     _attr_native_value := None |}.


(** A method call on [self._store], which reads and writes the disk. *)
Definition on_store {A} (c : M (store.Store * store.FileSystem) A) : M World A :=
  zoom (fun w => (_store w, disk w))
       (fun sd w => {| self := self w; _store := fst sd; disk := snd sd;
                       wall_clock := wall_clock w |}) c.

Definition datetime_now : M World datetime :=
  do _ <- load_global "datetime" ;;
  do w <- get ;;
  ret (wall_clock w).

Definition set_native_value (v : Q) : M World unit :=
  modify (fun w =>
    {| self := {| _attr_unique_id := _attr_unique_id (self w);
                  _attr_native_value := Some v |};
       _store := _store w; disk := disk w; wall_clock := wall_clock w |}).

(** [data.get(today, {}).get("heating_hours", 0)] and the same for cooling. *)
Definition heating_of (data : gmap string runtime_entry) (today : string) : Q :=
  match data !! today with
  | Some e => heating_hours e
  | None => 0
  end.

Definition cooling_of (data : gmap string runtime_entry) (today : string) : Q :=
  match data !! today with
  | Some e => cooling_hours e
  | None => 0
  end.

(** [HeatingRuntimeSensor.async_update]. *)
Definition HeatingRuntimeSensor_async_update : coroutine World unit :=
  do data <- on_store (await store.async_load) ;;
  do now <- datetime_now ;;
  let today := date_isoformat now in
  set_native_value (heating_of data today).

(** [CoolingRuntimeSensor.async_update]. *)
Definition CoolingRuntimeSensor_async_update : coroutine World unit :=
  do data <- on_store (await store.async_load) ;;
  do now <- datetime_now ;;
  let today := date_isoformat now in
  set_native_value (cooling_of data today).

End WithJson.

End sensor.

(* ===================================================================== *)
(** ** Notions the further properties are stated with                     *)
(* ===================================================================== *)

(** Whether the time [h]:[m], written on two digits each, is read back as
    itself. *)
Definition reads_back (h m : Z) : bool :=
  match strptime_HM (pad2 h ++ ":" ++ pad2 m) with
  | Some (h', m') => (h' =? h) && (m' =? m)
  | None => false
  end.

(** [r] is what a day's events offer at [now_time]: an event of greatest time
    among those not after [now_time], or nothing when all are later. *)
Definition latest_at (now_time : time) (events : list value) (r : option value) : Prop :=
  match r with
  | Some e =>
      In e events
      /\ exists t, event_time e = Some t /\ t <= now_time
         /\ forall e' t', In e' events -> event_time e' = Some t' ->
                          t' <= now_time -> t' <= t
  | None =>
      forall e' t', In e' events -> event_time e' = Some t' -> now_time < t'
  end.

(** The scenario's Monday written backwards. *)
Definition scenario_reversed : dict :=
  [("monday",
    PList [PDict [("time", PStr "22:00"); ("temperature", PInt 17)];
           PDict [("time", PStr "06:00"); ("temperature", PInt 20)]])].

(** The safety flag and the triggered mode agree: both unset, or the flag set
    with the mode heat or cool. *)
Definition safety_consistent `{Json} (e : climate.EnhancedThermostat) : Prop :=
  (climate._safety_active e = false /\ climate._safety_triggered_mode e = None)
  \/ (climate._safety_active e = true
      /\ (climate._safety_triggered_mode e = Some climate.HEAT
          \/ climate._safety_triggered_mode e = Some climate.COOL)).

(** A sensor world for the examples: the store of the examples on a disk,
    Monday 08:00. *)
Definition example_sensor_world (s : sensor.RuntimeSensor) (fs : store.FileSystem)
    : sensor.World :=
  {| sensor.self := s;
     sensor._store := example_store;
     sensor.disk := fs;
     sensor.wall_clock := monday_at 8 0 |}.


(* ===================================================================== *)
(** ** Properties of the schedule                                         *)
(* ===================================================================== *)

(** C5. With the override window active and [now] strictly before its expiry,
    evaluation returns [None] for every schedule content, absent, empty or
    malformed alike, and leaves the [Schedule] object as it was: no event of
    the schedule is read, so none of the errors an event can raise occurs. *)
Theorem override_suppresses_schedule (self : schedule.Schedule) (now until : datetime) :
  schedule._override_active self = true ->
  schedule._override_until self = Some until ->
  now < until ->
  schedule.get_current_setpoint now self = (Returned None, self).
Proof.
  intros Hactive Huntil Hlt.
  unfold schedule.get_current_setpoint, bind, get, ret.
  destruct (schedule._schedule self) as [d|] eqn:Hd; [|reflexivity].
  destruct (negb (truthy (PDict d))); [reflexivity|].
  unfold schedule.override_in_force.
  rewrite Hactive, Huntil. simpl.
  apply Z.ltb_lt in Hlt. rewrite Hlt. reflexivity.
Qed.

(** The theorem at a schedule whose only event would raise [ValueError]. *)
Lemma override_suppresses_schedule_witness :
  schedule.get_current_setpoint (monday_at 8 0)
    {| schedule._schedule := Some bad_time_schedule;
       schedule._override_active := true;
       schedule._override_until := Some (monday_at 9 0) |}
  = (Returned None,
     {| schedule._schedule := Some bad_time_schedule;
        schedule._override_active := true;
        schedule._override_until := Some (monday_at 9 0) |}).
Proof.
  apply (override_suppresses_schedule _ (monday_at 8 0) (monday_at 9 0));
    [reflexivity | reflexivity | vm_compute; reflexivity].
Defined.

Section ScheduleFacts.

Import schedule.

Lemma event_key_time {S} (e : value) (t : time) (s : S) :
  event_time e = Some t -> event_key e s = (Returned t, s).
Proof.
  unfold event_time, event_key, subscript, _parse_time, bind, ret.
  destruct e as [| | | | |l|d]; try discriminate.
  destruct (dict_get d "time") as [v|]; [|discriminate].
  destruct v; try discriminate.
  destruct (strptime_HM s0) as [[h m]|]; [|discriminate].
  intros [= <-]. reflexivity.
Qed.

Lemma event_key_raises {S} (e : value) (s : S) :
  event_time e = None -> exists x, event_key e s = (Raised x, s).
Proof.
  unfold event_time, event_key, subscript, _parse_time, bind, ret, raise.
  destruct e as [| | | | |l|d]; try (eexists; reflexivity).
  destruct (dict_get d "time") as [v|]; [|eexists; reflexivity].
  destruct v; try (eexists; reflexivity).
  destruct (strptime_HM s0) as [[h m]|]; [discriminate|].
  eexists; reflexivity.
Qed.

Lemma mapM_event_key {S} (evs : list value) (s : S) :
  Forall (fun e => is_Some (event_time e)) evs ->
  exists keys,
    mapM event_key evs s = (Returned keys, s)
    /\ Forall keyed (combine keys evs)
    /\ length keys = length evs.
Proof.
  induction 1 as [|e evs [t Ht] _ (keys & Hm & Hk & Hl)].
  - exists []. repeat split. constructor.
  - exists (t :: keys). simpl. unfold bind at 1.
    rewrite (event_key_time e t s Ht).
    unfold bind at 1. rewrite Hm. unfold ret.
    repeat split; [|simpl; congruence].
    constructor; [exact Ht | exact Hk].
Qed.

Lemma insert_by_key_In (x y : time * value) (l : list (time * value)) :
  In y (insert_by_key x l) <-> y = x \/ In y l.
Proof.
  induction l as [|z l IH]; simpl.
  - intuition.
  - destruct (fst z <? fst x); simpl; rewrite ?IH; intuition.
Qed.

Lemma sort_by_key_In (y : time * value) (l : list (time * value)) :
  In y (sort_by_key l) <-> In y l.
Proof.
  induction l as [|x l IH]; simpl; [reflexivity|].
  rewrite insert_by_key_In, IH. intuition.
Qed.

Lemma insert_by_key_sorted (x : time * value) (l : list (time * value)) :
  StronglySorted key_le l -> StronglySorted key_le (insert_by_key x l).
Proof.
  induction 1 as [|y l Hs IH Hall]; simpl.
  - repeat constructor.
  - destruct (fst y <? fst x) eqn:E.
    + constructor; [exact IH|].
      apply List.Forall_forall. intros z Hz.
      apply insert_by_key_In in Hz as [->|Hz].
      * apply Z.ltb_lt in E. unfold key_le. lia.
      * rewrite List.Forall_forall in Hall. auto.
    + apply Z.ltb_ge in E.
      constructor; [constructor; assumption|].
      constructor; [exact E|].
      eapply List.Forall_impl; [|exact Hall].
      intros z Hz. unfold key_le in *. lia.
Qed.

Lemma sort_by_key_sorted (l : list (time * value)) :
  StronglySorted key_le (sort_by_key l).
Proof.
  induction l; simpl; [constructor | apply insert_by_key_sorted; assumption].
Qed.

Lemma scan_events_keyed {S} (now_time : time) (l : list (time * value))
    (cur : option value) (s : S) :
  Forall keyed l ->
  scan_events now_time (map snd l) cur s = (Returned (scan_keyed now_time l cur), s).
Proof.
  intros Hall. revert cur.
  induction Hall as [|p l Hp _ IH]; intros cur; simpl; [reflexivity|].
  unfold bind. rewrite (event_key_time _ _ s Hp).
  destruct (fst p <=? now_time); [apply IH | reflexivity].
Qed.

(** On a list sorted by time, the scan keeps the last event that is not
    after [now_time]: one of greatest time among those. *)
Lemma scan_keyed_sorted (now_time : time) (l : list (time * value)) :
  StronglySorted key_le l ->
  forall cur,
    match scan_keyed now_time l cur with
    | Some e =>
        (cur = Some e /\ forall p, In p l -> now_time < fst p)
        \/ (exists t, In (t, e) l /\ t <= now_time
                      /\ forall p, In p l -> fst p <= now_time -> fst p <= t)
    | None => cur = None /\ forall p, In p l -> now_time < fst p
    end.
Proof.
  induction 1 as [|p l Hs IH Hall]; intros cur; simpl.
  - destruct cur; [left|]; split; auto; intros ? [].
  - rewrite List.Forall_forall in Hall.
    destruct (fst p <=? now_time) eqn:E.
    + apply Z.leb_le in E.
      specialize (IH (Some (snd p))).
      destruct (scan_keyed now_time l (Some (snd p))) as [e|].
      * right. destruct IH as [[[= <-] Hafter] | (t & Hin & Hle & Hmax)].
        -- exists (fst p). split; [left; destruct p; reflexivity|].
           split; [exact E|].
           intros q [<-|Hq] Hq'; [lia|]. specialize (Hafter q Hq). lia.
        -- exists t. split; [right; exact Hin|]. split; [exact Hle|].
           intros q [<-|Hq] Hq'; [|auto].
           specialize (Hall _ Hin). unfold key_le in Hall. simpl in Hall. exact Hall.
      * destruct IH as [[=] _].
    + apply Z.leb_gt in E.
      assert (Hafter : forall q, In q (p :: l) -> now_time < fst q).
      { intros q [<-|Hq]; [exact E|]. specialize (Hall q Hq). unfold key_le in Hall. lia. }
      destruct cur; [left|]; split; auto.
Qed.

End ScheduleFacts.

Section StateFacts.

Import schedule.

Lemma mapM_state {S A B} (f : A -> M S B) (l : list A) (s : S) :
  (forall x s, snd (f x s) = s) -> snd (mapM f l s) = s.
Proof.
  intros Hf. induction l as [|x l IH]; simpl; [reflexivity|].
  unfold bind at 1. specialize (Hf x s).
  destruct (f x s) as [[y|e] s1]; simpl in Hf; subst s1; [|reflexivity].
  unfold bind at 1.
  destruct (mapM f l s) as [[ys|e] s2]; simpl in IH; subst s2; reflexivity.
Qed.

Lemma event_key_state {S} (e : value) (s : S) : snd (event_key e s) = s.
Proof.
  destruct (event_time e) as [t|] eqn:E.
  - rewrite (event_key_time e t s E). reflexivity.
  - destruct (event_key_raises e s E) as [x ->]. reflexivity.
Qed.

Lemma sorted_events_state {S} (v : value) (s : S) : snd (sorted_events v s) = s.
Proof.
  unfold sorted_events, bind at 1.
  assert (Hit : snd (@iterate S v s) = s) by (destruct v; reflexivity).
  destruct (iterate v s) as [[l|e] s1]; simpl in Hit; subst s1; [|reflexivity].
  unfold bind.
  pose proof (mapM_state event_key l s event_key_state) as Hm.
  destruct (mapM event_key l s) as [[keys|e] s1]; simpl in Hm; subst s1; reflexivity.
Qed.

Lemma scan_events_state {S} (now_time : time) (l : list value)
    (cur : option value) (s : S) :
  snd (scan_events now_time l cur s) = s.
Proof.
  revert cur. induction l as [|e l IH]; intros cur; simpl; [reflexivity|].
  unfold bind. pose proof (event_key_state e s) as He.
  destruct (event_key e s) as [[t|x] s1]; simpl in He; subst s1; [|reflexivity].
  destruct (t <=? now_time); [apply IH | reflexivity].
Qed.

Lemma combine_covers {A B} (keys : list A) (evs : list B) (e : B) :
  length keys = length evs -> In e evs -> exists k, In (k, e) (combine keys evs).
Proof.
  revert keys. induction evs as [|x evs IH]; intros [|k keys] Hlen Hin;
    simpl in *; try contradiction; try discriminate.
  destruct Hin as [->|Hin].
  - exists k. left. reflexivity.
  - destruct (IH keys ltac:(congruence) Hin) as [k' Hk']. eauto.
Qed.

(** Evaluation of one day's list of events whose times all parse. *)
Lemma day_lookup {S} (now_time : time) (events : list value) (s : S) :
  Forall (fun e => is_Some (event_time e)) events ->
  exists keys,
    Forall keyed (combine keys events)
    /\ length keys = length events
    /\ bind (sorted_events (PList events))
            (fun sorted => scan_events now_time sorted None) s
       = (Returned (scan_keyed now_time (sort_by_key (combine keys events)) None), s).
Proof.
  intros Hall.
  destruct (mapM_event_key events s Hall) as (keys & Hm & Hk & Hl).
  exists keys. split; [exact Hk|]. split; [exact Hl|].
  unfold sorted_events, iterate, bind, ret. rewrite Hm.
  apply scan_events_keyed.
  apply List.Forall_forall. intros p Hp.
  apply (proj1 (sort_by_key_In _ _)) in Hp.
  rewrite List.Forall_forall in Hk. auto.
Qed.

End StateFacts.

Section ParseFacts.

Import schedule.

Lemma event_ok_false (e : value) :
  event_ok e = false ->
  (forall m, e <> PDict m) \/ exists m, e = PDict m /\ dict_get m "time" = None.
Proof.
  destruct e; simpl; try (left; discriminate).
  unfold dict_contains. destruct (dict_get d "time") eqn:E; [discriminate|].
  right. eauto.
Qed.

Lemma day_ok_false (d : dict) :
  forallb day_ok d = false -> violation (PDict d).
Proof.
  intros Hf.
  destruct (forallb_forall day_ok d) as [_ Hall].
  destruct (existsb (fun x => negb (day_ok x)) d) eqn:Hex.
  - apply existsb_exists in Hex as ([day events] & Hin & Hbad).
    apply negb_true_iff in Hbad. unfold day_ok in Hbad. simpl in Hbad.
    destruct events as [| | | | |l|m];
      try (apply (day_not_sequence d day _ Hin); discriminate).
    destruct (existsb (fun x => negb (event_ok x)) l) eqn:Hex'.
    + apply existsb_exists in Hex' as (e & Hine & Hbade).
      apply negb_true_iff in Hbade.
      destruct (event_ok_false e Hbade) as [Hn | (m & -> & Hm)].
      * eapply event_not_mapping; eauto.
      * eapply event_without_time; eauto.
    + exfalso. rewrite (proj2 (forallb_forall event_ok l)) in Hbad; [discriminate|].
      intros e He. destruct (event_ok e) eqn:E; [reflexivity|].
      assert (existsb (fun x => negb (event_ok x)) l = true) as Hc by
        (apply existsb_exists; exists e; rewrite E; auto).
      congruence.
  - exfalso. rewrite Hall in Hf; [discriminate|].
    intros x Hx. destruct (day_ok x) eqn:E; [reflexivity|].
    assert (existsb (fun x => negb (day_ok x)) d = true) as Hc by
      (apply existsb_exists; exists x; rewrite E; auto).
    congruence.
Qed.

Lemma day_ok_true (d : dict) :
  forallb day_ok d = true -> ~ violation (PDict d).
Proof.
  intros Hall Hv.
  rewrite forallb_forall in Hall.
  inversion Hv as [v Hn | d' day events Hin Hn | d' day l e Hin Hine Hn
                   | d' day l m Hin Hine Hm]; subst.
  - exact (Hn d eq_refl).
  - specialize (Hall _ Hin). unfold day_ok in Hall. simpl in Hall.
    destruct events; try discriminate. exact (Hn l eq_refl).
  - specialize (Hall _ Hin). unfold day_ok in Hall. simpl in Hall.
    rewrite forallb_forall in Hall. specialize (Hall _ Hine).
    destruct e; try discriminate. exact (Hn d0 eq_refl).
  - specialize (Hall _ Hin). unfold day_ok in Hall. simpl in Hall.
    rewrite forallb_forall in Hall. specialize (Hall _ Hine).
    simpl in Hall. unfold dict_contains in Hall. rewrite Hm in Hall. discriminate.
Qed.

(** What is installed has the shape the evaluation relies on: every weekday
    holds a list, and every event of it is a mapping with a time field. *)
Lemma parse_schedule_shape (safe_load : string -> option value)
    (schedule_yaml : option string) (d : dict) (day : string) (v : value) :
  _parse_schedule safe_load schedule_yaml = Some d ->
  In (day, v) d ->
  exists events,
    v = PList events
    /\ forall e, In e events -> exists m t, e = PDict m /\ dict_get m "time" = Some t.
Proof.
  unfold _parse_schedule.
  destruct schedule_yaml as [text|]; [|discriminate].
  destruct (String.eqb text ""); [discriminate|].
  destruct (safe_load text) as [[| | | | | |d']|]; try discriminate.
  destruct (forallb day_ok d') eqn:Hall; [|discriminate].
  intros [= ->] Hin.
  rewrite forallb_forall in Hall. specialize (Hall _ Hin).
  unfold day_ok in Hall. simpl in Hall.
  destruct v as [| | | | |events|]; try discriminate.
  exists events. split; [reflexivity|].
  intros e He. rewrite forallb_forall in Hall. specialize (Hall _ He).
  destruct e as [| | | | | |m]; try discriminate.
  simpl in Hall. unfold dict_contains in Hall.
  destruct (dict_get m "time") as [t|] eqn:Ht; [|discriminate].
  exists m, t. split; [reflexivity | exact Ht].
Qed.

End ParseFacts.


(** No text, the empty text and a text that is not YAML install nothing. *)
Lemma parse_schedule_nothing (safe_load : string -> option value) (text : string) :
  schedule._parse_schedule safe_load None = None
  /\ schedule._parse_schedule safe_load (Some "") = None
  /\ (safe_load text = None -> schedule._parse_schedule safe_load (Some text) = None).
Proof.
  repeat split. intros Hload. unfold schedule._parse_schedule.
  destruct (String.eqb text ""); [reflexivity|]. rewrite Hload. reflexivity.
Qed.

(** C4, amended. For a definition text that [yaml.safe_load] parses to [v]:
    when the top level is not a mapping, a weekday's value is not a sequence,
    an event is not a mapping or an event has no time field, the load fails as
    a whole; otherwise the whole definition [v] is installed, event for event,
    whether or not its time fields parse as "HH:MM". Either way the result is
    nothing or all of [v]: no event is dropped. *)
Theorem parse_schedule_structural (safe_load : string -> option value)
    (text : string) (v : value) :
  text <> "" ->
  safe_load text = Some v ->
  (violation v -> schedule._parse_schedule safe_load (Some text) = None)
  /\ (~ violation v ->
      exists d, v = PDict d /\ schedule._parse_schedule safe_load (Some text) = Some d)
  /\ (schedule._parse_schedule safe_load (Some text) = None
      \/ exists d, v = PDict d /\ schedule._parse_schedule safe_load (Some text) = Some d).
Proof.
  intros Htext Hload.
  unfold schedule._parse_schedule.
  destruct (String.eqb_spec text "") as [->|_]; [congruence|].
  rewrite Hload. split; [|split].
  - intros Hv. destruct v; try reflexivity.
    destruct (forallb schedule.day_ok d) eqn:E; [|reflexivity].
    destruct (day_ok_true d E Hv).
  - intros Hv.
    destruct v; try (destruct Hv; apply top_level_not_mapping; discriminate).
    exists d. split; [reflexivity|].
    destruct (forallb schedule.day_ok d) eqn:E; [reflexivity|].
    destruct (Hv (day_ok_false d E)).
  - destruct v; try (left; reflexivity).
    destruct (forallb schedule.day_ok d); [right; eauto | left; reflexivity].
Qed.

(** The theorem at the scenario's definition. *)
Lemma parse_schedule_structural_witness :
  (violation (PDict scenario_schedule) ->
   schedule._parse_schedule (fun _ => Some (PDict scenario_schedule))
     (Some "monday: [...]") = None)
  /\ (~ violation (PDict scenario_schedule) ->
      exists d, PDict scenario_schedule = PDict d
        /\ schedule._parse_schedule (fun _ => Some (PDict scenario_schedule))
             (Some "monday: [...]") = Some d)
  /\ (schedule._parse_schedule (fun _ => Some (PDict scenario_schedule))
        (Some "monday: [...]") = None
      \/ exists d, PDict scenario_schedule = PDict d
           /\ schedule._parse_schedule (fun _ => Some (PDict scenario_schedule))
                (Some "monday: [...]") = Some d).
Proof.
  apply (parse_schedule_structural (fun _ => Some (PDict scenario_schedule))
           "monday: [...]" (PDict scenario_schedule));
    [discriminate | reflexivity].
Defined.

(** C4 as stated fails: a definition whose only event carries the time
    "25:00", which does not parse as "HH:MM", is loaded and installed whole;
    the error shows when Monday is evaluated. *)
Lemma parse_schedule_accepts_bad_time :
  strptime_HM "25:00" = None
  /\ schedule._parse_schedule (fun _ => Some (PDict bad_time_schedule))
       (Some "monday: [{time: '25:00', temperature: 20}]") = Some bad_time_schedule
  /\ fst (schedule.get_current_setpoint (monday_at 8 0)
            (schedule.Schedule_init (fun _ => Some (PDict bad_time_schedule))
               (Some "monday: [{time: '25:00', temperature: 20}]")))
     = Raised (ValueError "time data does not match format '%H:%M'").
Proof. repeat split; reflexivity. Qed.

(** C6, amended. For a loaded schedule that is not the empty mapping, with no
    override in force at [now], evaluation clears the override (expired or
    not set); it returns [None] when today's weekday key is absent; when
    today's value is a list of events whose time fields all parse, it returns
    an event of that day whose time of day is the greatest not exceeding that
    of [now], and [None] exactly when every event of the day is later than
    [now]. The scenario of the specification follows: Monday 08:00 yields the
    06:00 event (temperature 20), Monday 23:00 the 22:00 event (temperature
    17), Monday 05:00 nothing. *)
Theorem evaluation_selects_latest_event :
  (forall (self : schedule.Schedule) (sched : dict) (now : datetime),
     schedule._schedule self = Some sched ->
     sched <> [] ->
     (schedule._override_active self = true ->
      forall until, schedule._override_until self = Some until -> until <= now) ->
     exists result,
       schedule.get_current_setpoint now self = (result, schedule.clear_override self)
       /\ match dict_get sched (strftime_A_lower now) with
          | None => result = Returned None
          | Some day_events =>
              forall events,
                day_events = PList events ->
                Forall (fun e => is_Some (event_time e)) events ->
                match result with
                | Returned (Some e) =>
                    In e events
                    /\ exists t, event_time e = Some t /\ t <= datetime_time now
                       /\ forall e' t', In e' events -> event_time e' = Some t' ->
                                        t' <= datetime_time now -> t' <= t
                | Returned None =>
                    forall e' t', In e' events -> event_time e' = Some t' ->
                                  datetime_time now < t'
                | Raised _ => False
                end
          end)
  /\ fst (schedule.get_current_setpoint (monday_at 8 0) scenario_object)
     = Returned (Some (PDict [("time", PStr "06:00"); ("temperature", PInt 20)]))
  /\ fst (schedule.get_current_setpoint (monday_at 23 0) scenario_object)
     = Returned (Some (PDict [("time", PStr "22:00"); ("temperature", PInt 17)]))
  /\ fst (schedule.get_current_setpoint (monday_at 5 0) scenario_object)
     = Returned None.
Proof.
  split; [|repeat split; reflexivity].
  intros self sched now Hs Hne Hexp.
  unfold schedule.get_current_setpoint, bind at 1, get.
  rewrite Hs.
  assert (Htruthy : truthy (PDict sched) = true) by (destruct sched; [congruence | reflexivity]).
  rewrite Htruthy. simpl negb. cbv iota.
  assert (Hforce : schedule.override_in_force self now = false).
  { unfold schedule.override_in_force.
    destruct (schedule._override_active self) eqn:Ha; [|reflexivity].
    destruct (schedule._override_until self) as [u|] eqn:Hu; [|reflexivity].
    simpl. apply Z.ltb_ge. apply (Hexp eq_refl u eq_refl). }
  rewrite Hforce. unfold bind at 1, put.
  set (s := schedule.clear_override self).
  destruct (dict_get sched (strftime_A_lower now)) as [day_events|] eqn:Hday;
    [|eexists; split; reflexivity].
  exists (fst (bind (schedule.sorted_events day_events)
                 (fun sorted => schedule.scan_events (datetime_time now) sorted None) s)).
  split.
  - apply injective_projections; [reflexivity|]. simpl.
    unfold bind. pose proof (sorted_events_state day_events s) as H1.
    destruct (schedule.sorted_events day_events s) as [[sorted|x] s1];
      simpl in H1; subst s1; [|reflexivity].
    apply scan_events_state.
  - intros events -> Hall.
    destruct (day_lookup (datetime_time now) events s Hall) as (keys & Hk & Hl & ->).
    simpl fst.
    pose proof (scan_keyed_sorted (datetime_time now) _
                  (sort_by_key_sorted (combine keys events)) None) as Hscan.
    rewrite List.Forall_forall in Hk.
    assert (Hkey : forall e' t', In e' events -> event_time e' = Some t' ->
                                 In (t', e') (schedule.sort_by_key (combine keys events))).
    { intros e' t' Hin Ht'. apply sort_by_key_In.
      destruct (combine_covers keys events e' Hl Hin) as [k Hk'].
      pose proof (Hk _ Hk') as Hkeyed. unfold keyed in Hkeyed. simpl in Hkeyed.
      congruence. }
    destruct (scan_keyed (datetime_time now) (schedule.sort_by_key (combine keys events)) None)
      as [e|].
    + destruct Hscan as [[[=] _] | (t & Hin & Hle & Hmax)].
      apply (proj1 (sort_by_key_In _ _)) in Hin.
      split; [eapply in_combine_r; exact Hin|].
      exists t. split; [exact (Hk _ Hin)|]. split; [exact Hle|].
      intros e' t' Hin' Ht' Hle'.
      exact (Hmax _ (Hkey e' t' Hin' Ht') Hle').
    + destruct Hscan as [_ Hafter].
      intros e' t' Hin' Ht'. exact (Hafter _ (Hkey e' t' Hin' Ht')).
Qed.

(** The first part of the theorem at the scenario's schedule, Monday 08:00. *)
Lemma evaluation_selects_latest_event_witness :
  exists result,
    schedule.get_current_setpoint (monday_at 8 0) scenario_object
    = (result, schedule.clear_override scenario_object)
    /\ match dict_get scenario_schedule (strftime_A_lower (monday_at 8 0)) with
       | None => result = Returned None
       | Some day_events =>
           forall events,
             day_events = PList events ->
             Forall (fun e => is_Some (event_time e)) events ->
             match result with
             | Returned (Some e) =>
                 In e events
                 /\ exists t, event_time e = Some t /\ t <= datetime_time (monday_at 8 0)
                    /\ forall e' t', In e' events -> event_time e' = Some t' ->
                                     t' <= datetime_time (monday_at 8 0) -> t' <= t
             | Returned None =>
                 forall e' t', In e' events -> event_time e' = Some t' ->
                               datetime_time (monday_at 8 0) < t'
             | Raised _ => False
             end
       end.
Proof.
  apply (proj1 evaluation_selects_latest_event scenario_object scenario_schedule
           (monday_at 8 0));
    [reflexivity | discriminate | discriminate].
Defined.

(** C6 as stated fails on two loaded schedules. The empty mapping is loaded
    and installed, and evaluating it at 08:00 returns before the override that
    expired at 07:00 is cleared. A schedule with an event at "25:00" is loaded
    too, and evaluating its day raises instead of returning an event. *)
Lemma evaluation_counterexamples :
  (schedule._parse_schedule (fun _ => Some (PDict [])) (Some "{}") = Some []
   /\ schedule.override_in_force empty_schedule_object (monday_at 8 0) = false
   /\ schedule.get_current_setpoint (monday_at 8 0) empty_schedule_object
      = (Returned None, empty_schedule_object)
   /\ schedule._override_active empty_schedule_object = true)
  /\ (schedule._parse_schedule (fun _ => Some (PDict bad_time_schedule))
        (Some "monday: [{time: '25:00', temperature: 20}]") = Some bad_time_schedule
      /\ fst (schedule.get_current_setpoint (monday_at 8 0)
                {| schedule._schedule := Some bad_time_schedule;
                   schedule._override_active := false;
                   schedule._override_until := None |})
         = Raised (ValueError "time data does not match format '%H:%M'")).
Proof. repeat split; reflexivity. Qed.

(* ===================================================================== *)
(** ** Properties of the store and of the ledger                          *)
(* ===================================================================== *)

Section LedgerFacts.

Import climate.
Context `{Json}.

Lemma alter_present (f : runtime_entry -> runtime_entry) (k : string)
    (m : gmap string runtime_entry) (e : runtime_entry) :
  m !! k = Some e -> alter f k m = <[k := f e]> m.
Proof.
  intros Hk. apply map_eq. intros i.
  destruct (decide (k = i)) as [->|Hne].
  - rewrite lookup_alter_eq, lookup_insert_eq, Hk. reflexivity.
  - rewrite lookup_alter_ne, lookup_insert_ne by assumption. reflexivity.
Qed.

(** What lines 250 to 256 do to the ledger when the previous action was
    heating: today's heating hours grow by the duration, on a fresh entry of
    zeros when the day had none; cooling hours and the other days stay. *)
Lemma accrue_heating (today : string) (duration : Q) (ledger : gmap string runtime_entry) :
  accrue today HVACAction_HEATING duration ledger
  = <[today := add_heating duration (default new_entry (ledger !! today))]> ledger.
Proof.
  unfold accrue. simpl.
  destruct (ledger !! today) as [e|] eqn:E; simpl.
  - apply alter_present. exact E.
  - rewrite (alter_present _ _ _ new_entry) by apply lookup_insert_eq.
    apply insert_insert_eq.
Qed.

Lemma accrue_other (today last : string) (duration : Q)
    (ledger : gmap string runtime_entry) (day : string) :
  last <> HVACAction_HEATING -> last <> HVACAction_COOLING ->
  default new_entry (accrue today last duration ledger !! day)
  = default new_entry (ledger !! day).
Proof.
  intros Hh Hc. unfold accrue.
  destruct (String.eqb_spec last HVACAction_HEATING); [contradiction|].
  destruct (String.eqb_spec last HVACAction_COOLING); [contradiction|].
  destruct (ledger !! today) as [e|] eqn:E; [reflexivity|].
  destruct (decide (today = day)) as [<-|Hne].
  - rewrite lookup_insert_eq, E. reflexivity.
  - rewrite lookup_insert_ne by assumption. reflexivity.
Qed.

(** The body of [_async_update_runtime] after its first line, had [now] been
    bound: on a transition away from heating it charges the elapsed hours to
    today's heating total and to nothing else. *)
Lemma update_runtime_at_heating (now timestamp : datetime) (new_state : State)
    (w : Hass) (st : store.Store) :
  _last_hvac_action (entity w) = Some HVACAction_HEATING ->
  _last_action_timestamp (entity w) = Some timestamp ->
  attr_hvac_action new_state <> Some HVACAction_HEATING ->
  _store (entity w) = Some st ->
  fst (update_runtime_at now new_state w) = Returned tt
  /\ _runtime_data (entity (snd (update_runtime_at now new_state w)))
     = <[date_isoformat now :=
           add_heating (hours_between now timestamp)
             (default new_entry (_runtime_data (entity w) !! date_isoformat now))]>
         (_runtime_data (entity w)).
Proof.
  intros Hlast Hts Hne Hst.
  unfold update_runtime_at, self_, assign, never_awaited, bind, get, modify, ret.
  simpl. rewrite Hlast, Hts. simpl.
  destruct (bool_decide_reflect (attr_hvac_action new_state = Some HVACAction_HEATING))
    as [Heq|_]; [contradiction|].
  simpl. rewrite Hst. simpl. split; [reflexivity|].
  apply accrue_heating.
Qed.

End LedgerFacts.

(** C9, amended. When [open] does not refuse the store's path for writing,
    and [json.load] reads back what [json.dump] writes for the ledger, saving
    the ledger and then loading from the store returns the same ledger, day
    keys and hour totals alike, and leaves it in the store's [_data]. *)
Theorem save_then_load (J : Json) (self : store.Store) (fs : store.FileSystem)
    (ledger : gmap string runtime_entry) :
  store.refused fs (store._storage_path self) = false ->
  json_load (json_dump ledger) = Some ledger ->
  fst (store.async_load (snd (store.async_save ledger (self, fs)))) = Returned ledger
  /\ store._data (fst (snd (store.async_load (snd (store.async_save ledger (self, fs))))))
     = ledger.
Proof.
  intros Hopen Hjson.
  unfold store.async_save, store.async_load, bind, get, put, ret. simpl.
  rewrite Hopen. simpl.
  rewrite lookup_insert_eq, Hjson. split; reflexivity.
Qed.

(** The theorem at a ledger of one day, on a disk that accepts the write. *)
Lemma save_then_load_witness :
  fst (store.async_load (snd (store.async_save example_ledger (example_store, writable_disk))))
  = Returned example_ledger
  /\ store._data
       (fst (snd (store.async_load
                    (snd (store.async_save example_ledger (example_store, writable_disk))))))
     = example_ledger.
Proof.
  apply (save_then_load items_json example_store writable_disk example_ledger).
  - reflexivity.
  - vm_compute. reflexivity.
Defined.

(** C9 as stated fails when the write is refused: [async_save] logs the
    [IOError] and returns, no file appears, and the load that follows returns
    the empty ledger, not the one that was saved. *)
Lemma save_refused_then_load :
  (forall d, json_load (json_dump d) = Some d)
  /\ fst (store.async_load (snd (store.async_save example_ledger (example_store, read_only_disk))))
     = Returned ∅
  /\ example_ledger <> ∅.
Proof.
  split; [|split].
  - intros d. simpl. unfold items_load, items_dump. f_equal. apply list_to_map_to_list.
  - reflexivity.
  - unfold example_ledger. apply insert_non_empty.
Qed.

(* ===================================================================== *)
(** ** Properties of the safety guard and of the timer                    *)
(* ===================================================================== *)

Section GuardFacts.

Import climate.
Context `{Json}.
Variable DOMAIN : string.

Lemma Qltb_lt (a b : Q) : Qltb a b = true <-> (a < b)%Q.
Proof.
  unfold Qltb. rewrite negb_true_iff. split.
  - intros E. apply Qnot_le_lt. intros Hle. apply Qle_bool_iff in Hle. congruence.
  - intros Hlt. destruct (Qle_bool b a) eqn:E; [|reflexivity].
    apply Qle_bool_iff in E. exfalso. exact (Qlt_not_le _ _ Hlt E).
Qed.

Lemma Qltb_ge (a b : Q) : Qltb a b = false <-> (b <= a)%Q.
Proof.
  unfold Qltb. rewrite negb_false_iff. apply Qle_bool_iff.
Qed.


Ltac run_guard :=
  unfold _async_check_safety_temp, _create_notification, services_async_call,
    self_, assign, never_awaited, bind, get, put, modify, ret, raise;
  simpl.

(** The guard in the Normal state, thermostat off, below the minimum. *)
Lemma guard_activates_heat (w : Hass) (temp lo : Q) :
  _safety_active (entity w) = false ->
  hvac_mode (entity w) = Some "off" ->
  current_temperature (entity w) = Some temp ->
  _safety_min_temp (entity w) = Some lo ->
  (temp < lo)%Q ->
  _async_check_safety_temp DOMAIN w
  = (Returned tt,
     record_call (notification DOMAIN (msg_heating_on temp lo))
       (set_entity (set_safety true (Some HEAT) (entity w)) w)).
Proof.
  intros Hact Hmode Htemp Hmin Hlt.
  run_guard. rewrite Hmode, Htemp, Hact. simpl.
  unfold below_min. rewrite Hmin.
  apply Qltb_lt in Hlt. rewrite Hlt. reflexivity.
Qed.

(** The guard in the Normal state, thermostat off, above the maximum and not
    below a configured minimum. *)
Lemma guard_activates_cool (w : Hass) (temp hi : Q) :
  _safety_active (entity w) = false ->
  hvac_mode (entity w) = Some "off" ->
  current_temperature (entity w) = Some temp ->
  _safety_max_temp (entity w) = Some hi ->
  (hi < temp)%Q ->
  (forall lo, _safety_min_temp (entity w) = Some lo -> (lo <= temp)%Q) ->
  _async_check_safety_temp DOMAIN w
  = (Returned tt,
     record_call (notification DOMAIN (msg_cooling_on temp hi))
       (set_entity (set_safety true (Some COOL) (entity w)) w)).
Proof.
  intros Hact Hmode Htemp Hmax Hlt Hmin.
  run_guard. rewrite Hmode, Htemp, Hact. simpl.
  assert (Hb : below_min (entity w) temp = None).
  { unfold below_min. destruct (_safety_min_temp (entity w)) as [lo|]; [|reflexivity].
    rewrite (proj2 (Qltb_ge temp lo) (Hmin lo eq_refl)). reflexivity. }
  rewrite Hb. unfold above_max. rewrite Hmax.
  apply Qltb_lt in Hlt. rewrite Hlt. reflexivity.
Qed.

(** The guard in SafetyOverride(m) when the reported mode is another one. *)
Lemma guard_manual_override (w : Hass) (m : HVACMode) (mode : string) (temp : Q) :
  _safety_active (entity w) = true ->
  _safety_triggered_mode (entity w) = Some m ->
  hvac_mode (entity w) = Some mode ->
  mode <> HVACMode_value m ->
  current_temperature (entity w) = Some temp ->
  _async_check_safety_temp DOMAIN w
  = (Returned tt,
     record_call (notification DOMAIN msg_manual_override)
       (set_entity (set_safety false None (entity w)) w)).
Proof.
  intros Hact Htrig Hmode Hne Htemp.
  run_guard. rewrite Hmode, Htemp, Hact, Htrig. simpl.
  destruct (String.eqb_spec mode (HVACMode_value m)); [contradiction|]. reflexivity.
Qed.

(** The guard in SafetyOverride(Heat), mode still heat, temperature back at
    the minimum plus the buffer or above. *)
Lemma guard_releases_heat (w : Hass) (temp lo : Q) :
  _safety_active (entity w) = true ->
  _safety_triggered_mode (entity w) = Some HEAT ->
  hvac_mode (entity w) = Some "heat" ->
  current_temperature (entity w) = Some temp ->
  _safety_min_temp (entity w) = Some lo ->
  (lo + HYSTERESIS_BUFFER <= temp)%Q ->
  _async_check_safety_temp DOMAIN w
  = (Returned tt,
     record_call (notification DOMAIN (msg_heating_off temp))
       (set_entity (set_safety false None (entity w)) w)).
Proof.
  intros Hact Htrig Hmode Htemp Hmin Hle.
  run_guard. rewrite Hmode, Htemp, Hact, Htrig. simpl.
  unfold heat_recovered, plus_buffer, bind, ret. rewrite Htrig, Hmin. simpl.
  apply Qle_bool_iff in Hle. rewrite Hle. reflexivity.
Qed.


Lemma guard_releases_cool (w : Hass) (temp hi : Q) :
  _safety_active (entity w) = true ->
  _safety_triggered_mode (entity w) = Some COOL ->
  hvac_mode (entity w) = Some "cool" ->
  current_temperature (entity w) = Some temp ->
  _safety_max_temp (entity w) = Some hi ->
  (temp <= hi - HYSTERESIS_BUFFER)%Q ->
  _async_check_safety_temp DOMAIN w
  = (Returned tt,
     record_call (notification DOMAIN (msg_cooling_off temp))
       (set_entity (set_safety false None (entity w)) w)).
Proof.
  intros Hact Htrig Hmode Htemp Hmax Hle.
  run_guard. rewrite Hmode, Htemp, Hact, Htrig. simpl.
  unfold heat_recovered, cool_recovered, minus_buffer, bind, ret. rewrite Htrig, Hmax. simpl.
  apply Qle_bool_iff in Hle. rewrite Hle. reflexivity.
Qed.


(** The bodies of the two public operations stop at the clock: the name
    [datetime] is not bound in the module, so the override is not set and no
    call reaches the service registry. *)
Lemma get_next_schedule_time_raises (w : Hass) :
  _get_next_schedule_time w = (Raised (NameError "datetime"), w).
Proof. reflexivity. Qed.

Lemma async_set_hvac_mode_raises (m : HVACMode) (w : Hass) :
  await (async_set_hvac_mode m) w = (Raised (NameError "datetime"), w).
Proof. reflexivity. Qed.

Lemma async_set_temperature_raises (v : value) (w : Hass) :
  await (async_set_temperature v) w = (Raised (NameError "datetime"), w).
Proof. reflexivity. Qed.

(** Of the two names the module takes from the [datetime] library, only
    [timedelta] is bound. *)
Lemma datetime_not_imported :
  existsb (String.eqb "timedelta") module_globals = true
  /\ existsb (String.eqb "datetime") module_globals = false.
Proof. split; reflexivity. Qed.

(** The handler of a state change records the new state and stops in the
    runtime update: the guard that follows it is not reached. *)
Lemma device_update_stops_before_guard (st : State) (w : Hass) :
  _async_update_underlying_thermostat DOMAIN (Some st) w
  = (Raised (NameError "datetime"),
     set_entity (set_underlying (Some st) (attr_supported_features st) (entity w)) w).
Proof. reflexivity. Qed.

End GuardFacts.

Section GuardTheorems.

Import climate.

(** C1, amended. In the Normal state with the reported mode Off and a known
    current temperature: when the minimum is configured and the temperature
    is strictly below it, the guard enters SafetyOverride(Heat) and asks for a
    notification that names the minimum as target; when the maximum is
    configured, the temperature is strictly above it and not below a
    configured minimum, the guard enters SafetyOverride(Cool) and asks for a
    notification that names the maximum as target. *)
Theorem safety_activation `{Json} (DOMAIN : string) (w : Hass) (temp : Q) :
  _safety_active (entity w) = false ->
  hvac_mode (entity w) = Some "off" ->
  current_temperature (entity w) = Some temp ->
  (forall lo,
     _safety_min_temp (entity w) = Some lo -> (temp < lo)%Q ->
     fst (_async_check_safety_temp DOMAIN w) = Returned tt
     /\ _safety_active (entity (snd (_async_check_safety_temp DOMAIN w))) = true
     /\ _safety_triggered_mode (entity (snd (_async_check_safety_temp DOMAIN w))) = Some HEAT
     /\ In (notification DOMAIN (msg_heating_on temp lo))
           (service_calls (snd (_async_check_safety_temp DOMAIN w))))
  /\ (forall hi,
        _safety_max_temp (entity w) = Some hi -> (hi < temp)%Q ->
        (forall lo, _safety_min_temp (entity w) = Some lo -> (lo <= temp)%Q) ->
        fst (_async_check_safety_temp DOMAIN w) = Returned tt
        /\ _safety_active (entity (snd (_async_check_safety_temp DOMAIN w))) = true
        /\ _safety_triggered_mode (entity (snd (_async_check_safety_temp DOMAIN w))) = Some COOL
        /\ In (notification DOMAIN (msg_cooling_on temp hi))
              (service_calls (snd (_async_check_safety_temp DOMAIN w)))).
Proof.
  intros Hact Hmode Htemp. split.
  - intros lo Hmin Hlt.
    rewrite (guard_activates_heat DOMAIN w temp lo Hact Hmode Htemp Hmin Hlt).
    simpl. repeat split. apply in_or_app. right. left. reflexivity.
  - intros hi Hmax Hlt Hmin.
    rewrite (guard_activates_cool DOMAIN w temp hi Hact Hmode Htemp Hmax Hlt Hmin).
    simpl. repeat split. apply in_or_app. right. left. reflexivity.
Qed.

End GuardTheorems.

(** The theorem at 14 degrees with the minimum at 15. *)
Lemma safety_activation_witness :
  let w := example_world
             (example_entity (example_state "off" (Some 14%Q) None)
                (Some 15%Q) (Some 30%Q) false None None None) in
  (forall lo,
     climate._safety_min_temp (climate.entity w) = Some lo -> (14 < lo)%Q ->
     fst (climate._async_check_safety_temp example_domain w) = Returned tt
     /\ climate._safety_active
          (climate.entity (snd (climate._async_check_safety_temp example_domain w))) = true
     /\ climate._safety_triggered_mode
          (climate.entity (snd (climate._async_check_safety_temp example_domain w)))
        = Some climate.HEAT
     /\ In (climate.notification example_domain (climate.msg_heating_on 14 lo))
           (climate.service_calls (snd (climate._async_check_safety_temp example_domain w))))
  /\ (forall hi,
        climate._safety_max_temp (climate.entity w) = Some hi -> (hi < 14)%Q ->
        (forall lo, climate._safety_min_temp (climate.entity w) = Some lo -> (lo <= 14)%Q) ->
        fst (climate._async_check_safety_temp example_domain w) = Returned tt
        /\ climate._safety_active
             (climate.entity (snd (climate._async_check_safety_temp example_domain w))) = true
        /\ climate._safety_triggered_mode
             (climate.entity (snd (climate._async_check_safety_temp example_domain w)))
           = Some climate.COOL
        /\ In (climate.notification example_domain (climate.msg_cooling_on 14 hi))
              (climate.service_calls (snd (climate._async_check_safety_temp example_domain w)))).
Proof.
  intros w.
  apply (safety_activation example_domain w 14%Q); reflexivity.
Defined.

(** C1 as stated fails where its two halves overlap: with the minimum at 25
    and the maximum at 20, a temperature of 22 is strictly above the maximum,
    yet the guard enters SafetyOverride(Heat), not SafetyOverride(Cool). *)
Lemma safety_activation_prefers_heat :
  let w := example_world
             (example_entity (example_state "off" (Some 22%Q) None)
                (Some 25%Q) (Some 20%Q) false None None None) in
  climate._safety_active (climate.entity w) = false
  /\ climate.hvac_mode (climate.entity w) = Some "off"
  /\ climate._safety_max_temp (climate.entity w) = Some 20%Q
  /\ (20 < 22)%Q
  /\ climate._safety_triggered_mode
       (climate.entity (snd (climate._async_check_safety_temp example_domain w)))
     = Some climate.HEAT.
Proof. repeat split. Qed.

Section ReleaseTheorems.

Import climate.

(** C2, where the code departs from it. In SafetyOverride(Heat) with the mode
    still heat and the temperature at the minimum plus 1.0 or above, the
    guard returns to Normal and asks for the notification, and that is all it
    does: the service calls grow by the notification alone, so no set-mode
    command for Off is made; the schedule object is left as it was. *)
Theorem safety_release_without_command `{Json} (DOMAIN : string) (w : Hass)
    (temp lo : Q) :
  _safety_active (entity w) = true ->
  _safety_triggered_mode (entity w) = Some HEAT ->
  hvac_mode (entity w) = Some "heat" ->
  current_temperature (entity w) = Some temp ->
  _safety_min_temp (entity w) = Some lo ->
  (lo + 1 <= temp)%Q ->
  fst (_async_check_safety_temp DOMAIN w) = Returned tt
  /\ _safety_active (entity (snd (_async_check_safety_temp DOMAIN w))) = false
  /\ _safety_triggered_mode (entity (snd (_async_check_safety_temp DOMAIN w))) = None
  /\ service_calls (snd (_async_check_safety_temp DOMAIN w))
     = service_calls w ++ [notification DOMAIN (msg_heating_off temp)]
  /\ _schedule (entity (snd (_async_check_safety_temp DOMAIN w))) = _schedule (entity w).
Proof.
  intros Hact Htrig Hmode Htemp Hmin Hle.
  rewrite (guard_releases_heat DOMAIN w temp lo Hact Htrig Hmode Htemp Hmin Hle).
  repeat split.
Qed.

(** C3, amended. In SafetyOverride(m), when the current temperature is known
    and the reported mode is not [m], the guard returns to Normal (flag and
    triggered mode cleared) and asks for the manual-override notification; the
    notification is the only service call added, so no device command is
    made, and every other field of the entity, the clock and the files are
    unchanged. *)
Theorem manual_override_releases `{Json} (DOMAIN : string) (w : Hass)
    (m : HVACMode) (mode : string) (temp : Q) :
  _safety_active (entity w) = true ->
  _safety_triggered_mode (entity w) = Some m ->
  hvac_mode (entity w) = Some mode ->
  mode <> HVACMode_value m ->
  current_temperature (entity w) = Some temp ->
  _async_check_safety_temp DOMAIN w
  = (Returned tt,
     {| entity := set_safety false None (entity w);
        service_calls := service_calls w ++ [notification DOMAIN msg_manual_override];
        wall_clock := wall_clock w;
        file_system := file_system w |}).
Proof.
  intros Hact Htrig Hmode Hne Htemp.
  exact (guard_manual_override DOMAIN w m mode temp Hact Htrig Hmode Hne Htemp).
Qed.

End ReleaseTheorems.

(** The theorem at 16.1 degrees with the minimum at 15. *)
Lemma safety_release_without_command_witness :
  let w := example_world
             (example_entity (example_state "heat" (Some (161 # 10)%Q) None)
                (Some 15%Q) (Some 30%Q) true (Some climate.HEAT) None None) in
  fst (climate._async_check_safety_temp example_domain w) = Returned tt
  /\ climate._safety_active
       (climate.entity (snd (climate._async_check_safety_temp example_domain w))) = false
  /\ climate._safety_triggered_mode
       (climate.entity (snd (climate._async_check_safety_temp example_domain w))) = None
  /\ climate.service_calls (snd (climate._async_check_safety_temp example_domain w))
     = climate.service_calls w
       ++ [climate.notification example_domain (climate.msg_heating_off (161 # 10))]
  /\ climate._schedule
       (climate.entity (snd (climate._async_check_safety_temp example_domain w)))
     = climate._schedule (climate.entity w).
Proof.
  intros w.
  apply (safety_release_without_command example_domain w (161 # 10)%Q 15%Q);
    try reflexivity.
  vm_compute. discriminate.
Defined.

(** The theorem at a thermostat the user switched to cool during
    SafetyOverride(Heat). *)
Lemma manual_override_releases_witness :
  let w := example_world
             (example_entity (example_state "cool" (Some 14%Q) None)
                (Some 15%Q) (Some 30%Q) true (Some climate.HEAT) None None) in
  climate._async_check_safety_temp example_domain w
  = (Returned tt,
     {| climate.entity := climate.set_safety false None (climate.entity w);
        climate.service_calls :=
          climate.service_calls w
          ++ [climate.notification example_domain climate.msg_manual_override];
        climate.wall_clock := climate.wall_clock w;
        climate.file_system := climate.file_system w |}).
Proof.
  intros w.
  apply (manual_override_releases example_domain w climate.HEAT "cool" 14%Q);
    try reflexivity.
  discriminate.
Defined.

(** C3 as stated fails when the snapshot has no current temperature: in
    SafetyOverride(Heat) with the reported mode "unavailable", the guard
    returns at line 177 and the safety state stays active. *)
Lemma manual_override_needs_temperature :
  climate._safety_active (climate.entity unavailable_world) = true
  /\ climate._safety_triggered_mode (climate.entity unavailable_world) = Some climate.HEAT
  /\ climate.hvac_mode (climate.entity unavailable_world) = Some "unavailable"
  /\ climate._async_check_safety_temp example_domain unavailable_world
     = (Returned tt, unavailable_world).
Proof. repeat split. Qed.

Section FrameFacts.

Import climate.
Context `{Json}.
Variable DOMAIN : string.

Ltac split_guard :=
  repeat match goal with
         | |- context [match ?x with _ => _ end] =>
             match type of x with
             | bool => destruct x eqn:?
             | option _ => destruct x eqn:?
             end; simpl
         end.

(** Whatever branch the guard takes, it leaves the schedule object alone and
    adds at most one call, a notification. *)
Lemma guard_frame (w : Hass) :
  _schedule (entity (snd (_async_check_safety_temp DOMAIN w))) = _schedule (entity w)
  /\ (service_calls (snd (_async_check_safety_temp DOMAIN w)) = service_calls w
      \/ exists message,
           service_calls (snd (_async_check_safety_temp DOMAIN w))
           = service_calls w ++ [notification DOMAIN message]).
Proof.
  unfold _async_check_safety_temp, _create_notification, services_async_call,
    heat_recovered, cool_recovered, plus_buffer, minus_buffer,
    self_, assign, never_awaited, bind, get, put, modify, ret, raise.
  simpl.
  split_guard; split; try reflexivity; eauto.
Qed.

(** A method call on the schedule object makes no service call. *)
Lemma on_schedule_calls {A} (c : M schedule.Schedule A) (w : Hass) :
  service_calls (snd (on_schedule c w)) = service_calls w.
Proof.
  unfold on_schedule, zoom. destruct (c (_schedule (entity w))). reflexivity.
Qed.

Lemma keeps_calls_ret {A} (a : A) : keeps_calls (ret a).
Proof. intros w. reflexivity. Qed.

Lemma keeps_calls_raise {A} (e : exn) : keeps_calls (@raise Hass A e).
Proof. intros w. reflexivity. Qed.

Lemma keeps_calls_bind {A B} (c : M Hass A) (k : A -> M Hass B) :
  keeps_calls c -> (forall a, keeps_calls (k a)) -> keeps_calls (bind c k).
Proof.
  intros Hc Hk w. unfold bind. specialize (Hc w).
  destruct (c w) as [[a|e] w1]; simpl in *; [|exact Hc].
  rewrite (Hk a w1). exact Hc.
Qed.

Lemma keeps_calls_on_schedule {A} (c : M schedule.Schedule A) :
  keeps_calls (on_schedule c).
Proof. intros w. apply on_schedule_calls. Qed.

Lemma keeps_calls_value_get (v : value) (k : string) : keeps_calls (value_get v k).
Proof. intros w. destruct v; reflexivity. Qed.

Lemma keeps_calls_value_lower (v : value) : keeps_calls (value_lower v).
Proof. intros w. destruct v; reflexivity. Qed.

Lemma keeps_calls_HVACMode_of (s : string) : keeps_calls (HVACMode_of s).
Proof. intros w. unfold HVACMode_of. destruct (List.find _ _); reflexivity. Qed.

Lemma keeps_calls_set_hvac_mode (m : HVACMode) : keeps_calls (await (async_set_hvac_mode m)).
Proof. intros w. reflexivity. Qed.

Lemma keeps_calls_set_temperature (v : value) :
  keeps_calls (await (async_set_temperature v)).
Proof. intros w. reflexivity. Qed.

Lemma keeps_calls_self : keeps_calls self_.
Proof. intros w. reflexivity. Qed.

Create HintDb calls.
#[local] Hint Resolve keeps_calls_ret keeps_calls_raise keeps_calls_on_schedule
  keeps_calls_value_get keeps_calls_value_lower keeps_calls_HVACMode_of
  keeps_calls_set_hvac_mode keeps_calls_set_temperature keeps_calls_self : calls.

(** The timer's coroutine makes no service call, whatever the schedule says. *)
Lemma apply_schedule_calls (now : datetime) : keeps_calls (_async_apply_schedule now).
Proof.
  unfold _async_apply_schedule.
  apply keeps_calls_bind; [auto with calls|].
  intros [setpoint|]; [|auto with calls].
  destruct (truthy setpoint); [|auto with calls].
  apply keeps_calls_bind; [auto with calls|]. intros target_temp.
  apply keeps_calls_bind; [auto with calls|]. intros mode.
  apply keeps_calls_bind; [auto with calls|]. intros self.
  apply keeps_calls_bind.
  - destruct (truthy mode && differs_from_mode mode (hvac_mode self));
      [|auto with calls].
    apply keeps_calls_bind; [auto with calls|]. intros name.
    apply keeps_calls_bind; auto with calls.
  - intros _.
    apply keeps_calls_bind; [auto with calls|]. intros self'.
    destruct (truthy target_temp
              && differs_from_temperature target_temp (target_temperature self'));
      auto with calls.
Qed.

End FrameFacts.

Section TickTheorems.

Import climate.

(** C7, where the code departs from it. No tick issues a command: the timer's
    coroutine leaves the service calls as they were for every time and every
    state. When a setpoint asks for a change, the awaited operation stops at
    its first line, where the name [datetime] is not bound: for the scenario's
    schedule on Monday 08:00, with the target at 18 and the setpoint at 20,
    the tick raises [NameError] and nothing is sent. *)
Theorem tick_issues_no_command :
  (forall (J : Json) (now : datetime) (w : Hass),
     service_calls (snd (_async_apply_schedule now w)) = service_calls w)
  /\ (let w := example_world
                 (example_entity (example_state "heat" (Some 19%Q) None)
                    (Some 15%Q) (Some 30%Q) false None None None) in
      fst (schedule.get_current_setpoint (monday_at 8 0) (_schedule (entity w)))
      = Returned (Some (PDict [("time", PStr "06:00"); ("temperature", PInt 20)]))
      /\ target_temperature (entity w) = Some 18%Q
      /\ _async_apply_schedule (monday_at 8 0) w = (Raised (NameError "datetime"), w)).
Proof.
  split.
  - intros J now w. apply (apply_schedule_calls now w).
  - repeat split.
Qed.

(** C8, where the code departs from it. Every call of [_async_update_runtime]
    stops at its first line, where the name [datetime] is not bound: it raises
    [NameError] and leaves the ledger, the last action and the last timestamp
    as they were, so heating hours never increase. For a thermostat heating
    since Monday 07:00 and reported idle at 08:00 the ledger stays empty, where
    the lines after the first would have charged one hour to that Monday. *)
Theorem runtime_update_raises :
  (forall (J : Json) (new_state : State) (w : Hass),
     _async_update_runtime new_state w = (Raised (NameError "datetime"), w))
  /\ (let w := example_world
                 (example_entity (example_state "heat" (Some 19%Q) (Some "heating"))
                    (Some 15%Q) (Some 30%Q) false None
                    (Some "heating") (Some (monday_at 7 0))) in
      let idle := example_state "heat" (Some 19%Q) (Some "idle") in
      _runtime_data (entity (snd (_async_update_runtime idle w))) = ∅
      /\ heating_hours
           <$> _runtime_data (entity (snd (update_runtime_at (monday_at 8 0) idle w)))
               !! "2024-01-01"
         = Some (0 + hours_between (monday_at 8 0) (monday_at 7 0))%Q
      /\ (hours_between (monday_at 8 0) (monday_at 7 0) == 1)%Q).
Proof.
  split.
  - intros J new_state w. reflexivity.
  - split; [reflexivity|]. split.
    + pose proof (update_runtime_at_heating (monday_at 8 0) (monday_at 7 0)
                    (example_state "heat" (Some 19%Q) (Some "idle"))
                    (example_world
                       (example_entity (example_state "heat" (Some 19%Q) (Some "heating"))
                          (Some 15%Q) (Some 30%Q) false None
                          (Some "heating") (Some (monday_at 7 0))))
                    {| store._storage_path := ".storage/runtime"; store._data := ∅ |}
                    eq_refl eq_refl ltac:(discriminate) eq_refl) as [_ Hledger].
      rewrite Hledger. rewrite lookup_insert_eq. reflexivity.
    + reflexivity.
Qed.

(** C10, where the code departs from it. The guard's calls of the public
    operations are never awaited, so their bodies do not run: every safety
    evaluation leaves the schedule object, and with it the override window, as
    it was, and adds no call but a notification. After the activation at 14
    degrees with the minimum at 15, the schedule evaluated one minute later
    still returns the scenario's 06:00 event. The operations themselves, when
    awaited, stop at the clock before they set the override. *)
Theorem safety_guard_never_sets_override :
  (forall (J : Json) (DOMAIN : string) (w : Hass),
     _schedule (entity (snd (_async_check_safety_temp DOMAIN w))) = _schedule (entity w)
     /\ (service_calls (snd (_async_check_safety_temp DOMAIN w)) = service_calls w
         \/ exists message,
              service_calls (snd (_async_check_safety_temp DOMAIN w))
              = service_calls w ++ [notification DOMAIN message]))
  /\ (let w := example_world
                 (example_entity (example_state "off" (Some 14%Q) None)
                    (Some 15%Q) (Some 30%Q) false None None None) in
      let w' := snd (_async_check_safety_temp example_domain w) in
      _safety_triggered_mode (entity w') = Some HEAT
      /\ schedule._override_active (_schedule (entity w')) = false
      /\ fst (schedule.get_current_setpoint (monday_at 8 1) (_schedule (entity w')))
         = Returned (Some (PDict [("time", PStr "06:00"); ("temperature", PInt 20)])))
  /\ (forall (J : Json) (w : Hass) (mode : HVACMode) (temperature : value),
        await (async_set_hvac_mode mode) w = (Raised (NameError "datetime"), w)
        /\ await (async_set_temperature temperature) w = (Raised (NameError "datetime"), w)).
Proof.
  split; [|split].
  - intros J DOMAIN w. apply guard_frame.
  - repeat split.
  - intros J w mode temperature. split.
    + apply async_set_hvac_mode_raises.
    + apply async_set_temperature_raises.
Qed.

End TickTheorems.

(* ===================================================================== *)
(** ** Further properties of the schedule                                 *)
(* ===================================================================== *)

Section TimeFacts.

Lemma digit_val_range (c : ascii) : is_digit c = true -> 0 <= digit_val c <= 9.
Proof.
  unfold is_digit, digit_val. intros Hd.
  apply andb_true_iff in Hd as [Hlo Hhi].
  apply Z.leb_le in Hlo. apply Z.leb_le in Hhi. lia.
Qed.

Lemma match_H_range (s : string) :
  Forall (fun p : Z * string => 0 <= fst p <= 23) (match_H s).
Proof.
  destruct s as [|c1 [|c2 r]]; simpl.
  - constructor.
  - destruct (is_digit c1) eqn:D1; repeat constructor; simpl;
      pose proof (digit_val_range c1 D1); lia.
  - repeat (apply Forall_app; split).
    + destruct ((digit_val c1 =? 2) && is_digit c2 && (digit_val c2 <=? 3)) eqn:E;
        [|constructor].
      apply andb_true_iff in E as [E E3]. apply andb_true_iff in E as [_ D2].
      apply Z.leb_le in E3. pose proof (digit_val_range c2 D2).
      repeat constructor; simpl; lia.
    + destruct (is_digit c1 && (digit_val c1 <=? 1) && is_digit c2) eqn:E;
        [|constructor].
      apply andb_true_iff in E as [E D2]. apply andb_true_iff in E as [D1 E1].
      apply Z.leb_le in E1.
      pose proof (digit_val_range c1 D1). pose proof (digit_val_range c2 D2).
      repeat constructor; simpl; lia.
    + destruct (is_digit c1) eqn:D1; [|constructor].
      pose proof (digit_val_range c1 D1). repeat constructor; simpl; lia.
Qed.

Lemma match_M_range (s : string) :
  Forall (fun p : Z * string => 0 <= fst p <= 59) (match_M s).
Proof.
  destruct s as [|c1 [|c2 r]]; simpl.
  - constructor.
  - destruct (is_digit c1) eqn:D1; repeat constructor; simpl;
      pose proof (digit_val_range c1 D1); lia.
  - apply Forall_app; split.
    + destruct (is_digit c1 && (digit_val c1 <=? 5) && is_digit c2) eqn:E;
        [|constructor].
      apply andb_true_iff in E as [E D2]. apply andb_true_iff in E as [D1 E1].
      apply Z.leb_le in E1.
      pose proof (digit_val_range c1 D1). pose proof (digit_val_range c2 D2).
      repeat constructor; simpl; lia.
    + destruct (is_digit c1) eqn:D1; [|constructor].
      pose proof (digit_val_range c1 D1). repeat constructor; simpl; lia.
Qed.

Lemma first_match_In {A B} (f : A -> option B) (l : list A) (y : B) :
  first_match f l = Some y -> exists x, In x l /\ f x = Some y.
Proof.
  induction l as [|x l IH]; simpl; [discriminate|].
  destruct (f x) as [y'|] eqn:E.
  - intros [= <-]. eauto.
  - intros Hl. destruct (IH Hl) as (x' & Hin & Hx'). eauto.
Qed.

Lemma strptime_HM_range (s : string) (h m : Z) :
  strptime_HM s = Some (h, m) -> 0 <= h <= 23 /\ 0 <= m <= 59.
Proof.
  unfold strptime_HM, regex_HM.
  destruct (first_match _ (match_H s)) as [[[h' m'] rest]|] eqn:E; [|discriminate].
  destruct rest; [|discriminate]. intros [= -> ->].
  apply first_match_In in E as ([h0 r0] & Hin & Hf). simpl in Hf.
  destruct r0 as [|c r0]; [discriminate|].
  destruct (Ascii.eqb_spec c ":") as [->|Hne].
  - destruct (match_M r0) as [|[m0 r1] l] eqn:EM; [discriminate|].
    injection Hf as -> -> _.
    pose proof (match_H_range s) as HH. rewrite List.Forall_forall in HH.
    specialize (HH _ Hin). simpl in HH.
    pose proof (match_M_range r0) as HM. rewrite EM in HM.
    inversion HM as [|? ? Hm0 _]; subst. simpl in Hm0. lia.
  - exfalso. revert Hf.
    destruct c as [[] [] [] [] [] [] [] []]; try discriminate.
    congruence.
Qed.

End TimeFacts.

(** X1. A time that [_parse_time] returns is a time of day on a whole minute:
    at least 00:00, before 24:00, with no seconds. Whatever the value given,
    the call returns such a time or raises. *)
Theorem parse_time_in_day {S} (v : value) (t : time) (s s' : S) :
  schedule._parse_time v s = (Returned t, s') ->
  0 <= t < US_PER_DAY /\ t mod US_PER_MINUTE = 0.
Proof.
  unfold schedule._parse_time, ret, raise.
  destruct v; try discriminate.
  destruct (strptime_HM s0) as [[h m]|] eqn:E; [|discriminate].
  intros [= <- _].
  apply strptime_HM_range in E. unfold mk_time, US_PER_DAY, US_PER_HOUR.
  split; [unfold US_PER_MINUTE, US_PER_SECOND; lia|].
  replace (h * (60 * US_PER_MINUTE) + m * US_PER_MINUTE)
    with ((h * 60 + m) * US_PER_MINUTE) by ring.
  apply Z.mod_mul. discriminate.
Qed.

(** The theorem at "22:00". *)
Lemma parse_time_in_day_witness :
  0 <= mk_time 22 0 < US_PER_DAY /\ mk_time 22 0 mod US_PER_MINUTE = 0.
Proof.
  apply (parse_time_in_day (PStr "22:00") (mk_time 22 0) tt tt). reflexivity.
Defined.

Section RoundTrip.

Lemma all_times_parse :
  forallb (fun h => forallb (fun m => reads_back (Z.of_nat h) (Z.of_nat m)) (seq 0 60))
          (seq 0 24) = true.
Proof. vm_compute. reflexivity. Qed.

Lemma strptime_HM_pad2 (h m : Z) :
  0 <= h < 24 -> 0 <= m < 60 ->
  strptime_HM (pad2 h ++ ":" ++ pad2 m) = Some (h, m).
Proof.
  intros Hh Hm.
  assert (Hrow := proj1 (forallb_forall _ _) all_times_parse (Z.to_nat h)
                    ltac:(apply in_seq; lia)).
  assert (Hall := proj1 (forallb_forall _ _) Hrow (Z.to_nat m)
                    ltac:(apply in_seq; lia)).
  simpl in Hall. rewrite !Z2Nat.id in Hall by lia.
  unfold reads_back in Hall.
  destruct (strptime_HM (pad2 h ++ ":" ++ pad2 m)) as [[h' m']|]; [|discriminate].
  apply andb_true_iff in Hall as [Eh Em].
  apply Z.eqb_eq in Eh. apply Z.eqb_eq in Em. congruence.
Qed.

End RoundTrip.

(** X2. Every time of day written "HH:MM", two digits each, is read back by
    [_parse_time] as that hour and minute. *)
Theorem parse_time_round_trip {S} (h m : Z) (s : S) :
  0 <= h < 24 -> 0 <= m < 60 ->
  schedule._parse_time (PStr (pad2 h ++ ":" ++ pad2 m)) s = (Returned (mk_time h m), s).
Proof.
  intros Hh Hm. unfold schedule._parse_time.
  rewrite (strptime_HM_pad2 h m Hh Hm). reflexivity.
Qed.

(** The theorem at 06:05. *)
Lemma parse_time_round_trip_witness :
  schedule._parse_time (PStr (pad2 6 ++ ":" ++ pad2 5)) tt = (Returned (mk_time 6 5), tt).
Proof.
  apply (parse_time_round_trip 6 5 tt); lia.
Defined.

Section EvaluationFacts.

Import schedule.

Lemma dict_get_nonempty (d : dict) (k : string) (v : value) :
  dict_get d k = Some v -> truthy (PDict d) = true.
Proof. destruct d; [discriminate | reflexivity]. Qed.

Lemma override_not_in_force (self : Schedule) (now : datetime) :
  (_override_active self = true ->
   forall until, _override_until self = Some until -> until <= now) ->
  override_in_force self now = false.
Proof.
  intros Hexp. unfold override_in_force.
  destruct (_override_active self); [|reflexivity].
  destruct (_override_until self) as [u|]; [|reflexivity].
  simpl. apply Z.ltb_ge. exact (Hexp eq_refl u eq_refl).
Qed.

(** Evaluation on a day the schedule holds, with no override in force. *)
Lemma get_current_setpoint_day (self : Schedule) (d : dict) (now : datetime) (v : value) :
  _schedule self = Some d ->
  override_in_force self now = false ->
  dict_get d (strftime_A_lower now) = Some v ->
  get_current_setpoint now self
  = (fst (bind (sorted_events v)
               (fun sorted => scan_events (datetime_time now) sorted None)
               (clear_override self)),
     clear_override self).
Proof.
  intros Hs Hforce Hday.
  unfold get_current_setpoint, bind at 1, get. rewrite Hs.
  rewrite (dict_get_nonempty d _ v Hday). simpl negb. cbv iota.
  rewrite Hforce. unfold bind at 1, put. rewrite Hday.
  apply injective_projections; [reflexivity|]. simpl.
  unfold bind. pose proof (sorted_events_state v (clear_override self)) as H1.
  destruct (sorted_events v (clear_override self)) as [[sorted|x] s1];
    simpl in H1; subst s1; [|reflexivity].
  apply scan_events_state.
Qed.

(** A day's events whose times all parse are evaluated without error, and the
    result is what the day offers at that time. *)
Lemma day_lookup_latest {S} (now_time : time) (events : list value) (s : S) :
  Forall (fun e => is_Some (event_time e)) events ->
  exists r,
    bind (sorted_events (PList events))
         (fun sorted => scan_events now_time sorted None) s = (Returned r, s)
    /\ latest_at now_time events r.
Proof.
  intros Hall.
  destruct (day_lookup now_time events s Hall) as (keys & Hk & Hl & Heq).
  eexists. split; [exact Heq|].
  pose proof (scan_keyed_sorted now_time _ (sort_by_key_sorted (combine keys events)) None)
    as Hscan.
  rewrite List.Forall_forall in Hk.
  assert (Hkey : forall e' t', In e' events -> event_time e' = Some t' ->
                               In (t', e') (sort_by_key (combine keys events))).
  { intros e' t' Hin Ht'. apply sort_by_key_In.
    destruct (combine_covers keys events e' Hl Hin) as [k Hk'].
    pose proof (Hk _ Hk') as Hkeyed. unfold keyed in Hkeyed. simpl in Hkeyed.
    congruence. }
  unfold latest_at.
  destruct (scan_keyed now_time (sort_by_key (combine keys events)) None) as [e|].
  - destruct Hscan as [[[=] _] | (t & Hin & Hle & Hmax)].
    apply (proj1 (sort_by_key_In _ _)) in Hin.
    split; [eapply in_combine_r; exact Hin|].
    exists t. split; [exact (Hk _ Hin)|]. split; [exact Hle|].
    intros e' t' Hin' Ht' Hle'. exact (Hmax _ (Hkey e' t' Hin' Ht') Hle').
  - destruct Hscan as [_ Hafter].
    intros e' t' Hin' Ht'. exact (Hafter _ (Hkey e' t' Hin' Ht')).
Qed.

Lemma latest_at_perm (now_time : time) (events events' : list value) (r : option value) :
  Permutation events events' -> latest_at now_time events r -> latest_at now_time events' r.
Proof.
  intros Hp. unfold latest_at. destruct r as [e|].
  - intros (Hin & t & Ht & Hle & Hmax). split; [eapply Permutation_in; eauto|].
    exists t. repeat split; auto.
    intros e' t' Hin'. apply Hmax. eapply Permutation_in; [symmetry; exact Hp | exact Hin'].
  - intros Hafter e' t' Hin'. apply Hafter.
    eapply Permutation_in; [symmetry; exact Hp | exact Hin'].
Qed.

Lemma NoDup_map_injective {A B} (f : A -> B) (l : list A) (x y : A) :
  List.NoDup (map f l) -> In x l -> In y l -> f x = f y -> x = y.
Proof.
  induction l as [|a l IH]; simpl; [contradiction|].
  intros Hnd. apply NoDup_cons_iff in Hnd as [Hnot Hnd].
  intros [->|Hx] [->|Hy] Heq; auto.
  - exfalso. apply Hnot. rewrite Heq. apply in_map. exact Hy.
  - exfalso. apply Hnot. rewrite <- Heq. apply in_map. exact Hx.
Qed.

Lemma latest_at_unique (now_time : time) (events : list value) (r r' : option value) :
  List.NoDup (map event_time events) ->
  latest_at now_time events r -> latest_at now_time events r' -> r = r'.
Proof.
  intros Hnd. unfold latest_at.
  destruct r as [e|], r' as [e'|]; auto.
  - intros (Hin & t & Ht & Hle & Hmax) (Hin' & t' & Ht' & Hle' & Hmax').
    f_equal. apply (NoDup_map_injective event_time events); auto.
    rewrite Ht, Ht'. f_equal.
    pose proof (Hmax e' t' Hin' Ht' Hle'). pose proof (Hmax' e t Hin Ht Hle). lia.
  - intros (Hin & t & Ht & Hle & _) Hafter. specialize (Hafter e t Hin Ht). lia.
  - intros Hafter (Hin & t & Ht & Hle & _). specialize (Hafter e' t Hin Ht). lia.
Qed.

(** Evaluation returns early and leaves the object alone, or goes on with
    the override cleared. *)
Lemma get_current_setpoint_cases (self : Schedule) (now : datetime) :
  get_current_setpoint now self = (Returned None, self)
  \/ exists o, get_current_setpoint now self = (o, clear_override self).
Proof.
  destruct (get_current_setpoint now self) as [o s'] eqn:E.
  unfold get_current_setpoint, bind at 1, get in E. cbv beta iota in E.
  destruct (_schedule self) as [d|]; [|injection E as <- <-; left; reflexivity].
  cbv beta iota in E.
  destruct (negb (truthy (PDict d))); [injection E as <- <-; left; reflexivity|].
  destruct (override_in_force self now); [injection E as <- <-; left; reflexivity|].
  right. exists o. f_equal.
  unfold bind at 1, put in E. cbv beta iota in E.
  destruct (dict_get d (strftime_A_lower now)) as [v|]; [|injection E as _ <-; reflexivity].
  apply (f_equal snd) in E. simpl in E. rewrite <- E.
  unfold bind.
  pose proof (sorted_events_state v (clear_override self)) as H1.
  destruct (sorted_events v (clear_override self)) as [[sorted|x] s1];
    simpl in H1; subst s1; [|reflexivity].
  apply scan_events_state.
Qed.

Lemma strftime_A_lower_day (now : datetime) : In (strftime_A_lower now) day_names.
Proof.
  unfold strftime_A_lower.
  assert (Hw : 0 <= weekday now < 7) by (unfold weekday; apply Z.mod_pos_bound; lia).
  assert (Hn : (Z.to_nat (weekday now) < 7)%nat) by lia.
  destruct (Z.to_nat (weekday now)) as [|[|[|[|[|[|[|n]]]]]]]; simpl; try lia; tauto.
Qed.

Lemma dict_get_absent (d : dict) (k : string) :
  (forall k' v, In (k', v) d -> k' <> k) -> dict_get d k = None.
Proof.
  induction d as [|[k' v] d IH]; simpl; [reflexivity|].
  intros Hall. destruct (String.eqb_spec k k') as [->|_].
  - destruct (Hall k' v (or_introl eq_refl) eq_refl).
  - apply IH. intros k'' v' Hin. apply (Hall k'' v'). right. exact Hin.
Qed.

Lemma week_later (now : datetime) :
  strftime_A_lower (now + timedelta_days 7) = strftime_A_lower now
  /\ datetime_time (now + timedelta_days 7) = datetime_time now.
Proof.
  unfold strftime_A_lower, weekday, toordinal, datetime_time, timedelta_days.
  assert (HD : US_PER_DAY <> 0) by discriminate.
  rewrite Z.div_add by exact HD. rewrite Z.mod_add by exact HD.
  split; [|reflexivity].
  replace (now / US_PER_DAY + 7 + 1 + 6) with (now / US_PER_DAY + 1 + 6 + 1 * 7) by ring.
  rewrite Z.mod_add by discriminate. reflexivity.
Qed.

End EvaluationFacts.

(** X3. A manual override suppresses the schedule exactly until it expires.
    After [set_override(until)], an evaluation strictly before [until]
    returns [None] and keeps the override; an evaluation at [until] or later,
    on a schedule that is not empty, clears the override and gives what the
    schedule gives when no override was ever set. *)
Theorem override_window (self : schedule.Schedule) (now until : datetime) :
  (now < until ->
   schedule.get_current_setpoint now (snd (schedule.set_override until self))
   = (Returned None, snd (schedule.set_override until self)))
  /\ (until <= now ->
      (exists d, schedule._schedule self = Some d /\ d <> []) ->
      schedule.get_current_setpoint now (snd (schedule.set_override until self))
      = schedule.get_current_setpoint now (schedule.clear_override self)).
Proof.
  destruct self as [[[|p d]|] active expiry].
  - split; [reflexivity|]. intros _ (d & [= <-] & Hne). congruence.
  - split.
    + intros Hlt. apply Z.ltb_lt in Hlt.
      unfold schedule.get_current_setpoint, schedule.set_override, modify, bind, get, ret,
        schedule.override_in_force.
      simpl. rewrite Hlt. reflexivity.
    + intros Hle _. apply Z.ltb_ge in Hle.
      unfold schedule.get_current_setpoint, schedule.set_override, modify, bind at 1 3, get,
        schedule.override_in_force.
      simpl. rewrite Hle. reflexivity.
  - split; [reflexivity|]. intros _ (d & [=] & _).
Qed.

(** The theorem at the scenario's schedule, overridden until 09:00. *)
Lemma override_window_witness :
  schedule.get_current_setpoint (monday_at 8 0)
    (snd (schedule.set_override (monday_at 9 0) scenario_object))
  = (Returned None, snd (schedule.set_override (monday_at 9 0) scenario_object))
  /\ schedule.get_current_setpoint (monday_at 9 0)
       (snd (schedule.set_override (monday_at 9 0) scenario_object))
     = schedule.get_current_setpoint (monday_at 9 0)
         (schedule.clear_override scenario_object).
Proof.
  split.
  - apply (proj1 (override_window scenario_object (monday_at 8 0) (monday_at 9 0))).
    vm_compute. reflexivity.
  - apply (proj2 (override_window scenario_object (monday_at 9 0) (monday_at 9 0))).
    + vm_compute. discriminate.
    + exists scenario_schedule. split; [reflexivity | discriminate].
Defined.

(** X4. Evaluation never changes the schedule definition and never sets an
    override: whatever it returns or raises, the object is left as it was or
    with its override cleared. *)
Theorem evaluation_frame (self : schedule.Schedule) (now : datetime) :
  schedule._schedule (snd (schedule.get_current_setpoint now self)) = schedule._schedule self
  /\ (snd (schedule.get_current_setpoint now self) = self
      \/ snd (schedule.get_current_setpoint now self) = schedule.clear_override self).
Proof.
  destruct (get_current_setpoint_cases self now) as [-> | [o ->]]; simpl.
  - split; [reflexivity | left; reflexivity].
  - split; [reflexivity | right; reflexivity].
Qed.

(** X5. The schedule is weekly: with no override in force, an evaluation seven
    days later gives the same result and leaves the same object. *)
Theorem evaluation_weekly (self : schedule.Schedule) (now : datetime) :
  schedule.override_in_force self now = false ->
  schedule.get_current_setpoint (now + timedelta_days 7) self
  = schedule.get_current_setpoint now self.
Proof.
  intros Hforce.
  assert (Hforce' : schedule.override_in_force self (now + timedelta_days 7) = false).
  { revert Hforce. unfold schedule.override_in_force.
    destruct (schedule._override_active self); [|reflexivity].
    destruct (schedule._override_until self) as [u|]; [|reflexivity].
    simpl. rewrite !Z.ltb_ge. unfold timedelta_days, US_PER_DAY, US_PER_HOUR,
      US_PER_MINUTE, US_PER_SECOND. lia. }
  destruct (week_later now) as [Hday Htime].
  unfold schedule.get_current_setpoint, bind, get. cbv beta iota.
  rewrite Hforce, Hforce', Hday, Htime. reflexivity.
Qed.

(** The theorem at the scenario's schedule, Monday 08:00. *)
Lemma evaluation_weekly_witness :
  schedule.get_current_setpoint (monday_at 8 0 + timedelta_days 7) scenario_object
  = schedule.get_current_setpoint (monday_at 8 0) scenario_object.
Proof.
  apply (evaluation_weekly scenario_object (monday_at 8 0)). reflexivity.
Defined.

(** X6. Only the seven lowercase English weekday names are ever looked up: a
    schedule none of whose keys is one of them (keys such as "Monday" or
    "mon") yields no setpoint at any time. *)
Theorem foreign_keys_never_apply (self : schedule.Schedule) (d : dict) (now : datetime) :
  schedule._schedule self = Some d ->
  (forall k v, In (k, v) d -> ~ In k day_names) ->
  fst (schedule.get_current_setpoint now self) = Returned None.
Proof.
  intros Hs Hkeys.
  unfold schedule.get_current_setpoint, bind, get, put. cbv beta iota. rewrite Hs.
  destruct (negb (truthy (PDict d))); [reflexivity|].
  destruct (schedule.override_in_force self now); [reflexivity|].
  rewrite dict_get_absent; [reflexivity|].
  intros k v Hin Heq. apply (Hkeys k v Hin). rewrite Heq.
  apply strftime_A_lower_day.
Qed.

(** The theorem at a schedule keyed "Monday", on a Monday. *)
Lemma foreign_keys_never_apply_witness :
  fst (schedule.get_current_setpoint (monday_at 8 0)
         {| schedule._schedule :=
              Some [("Monday", PList [PDict [("time", PStr "06:00")]])];
            schedule._override_active := false;
            schedule._override_until := None |})
  = Returned None.
Proof.
  apply (foreign_keys_never_apply _
           [("Monday", PList [PDict [("time", PStr "06:00")]])] (monday_at 8 0)).
  - reflexivity.
  - intros k v [[= <- _]|[]]. vm_compute. intuition discriminate.
Defined.

(** X7. The order in which a day's events are written does not matter: two
    schedules whose lists for today are permutations of each other, with
    times that all parse and are pairwise different, give the same result. *)
Theorem evaluation_order_insensitive (self self' : schedule.Schedule) (d d' : dict)
    (events events' : list value) (now : datetime) :
  schedule._schedule self = Some d ->
  schedule._schedule self' = Some d' ->
  schedule.override_in_force self now = false ->
  schedule.override_in_force self' now = false ->
  dict_get d (strftime_A_lower now) = Some (PList events) ->
  dict_get d' (strftime_A_lower now) = Some (PList events') ->
  Permutation events events' ->
  Forall (fun e => is_Some (event_time e)) events ->
  List.NoDup (map event_time events) ->
  fst (schedule.get_current_setpoint now self)
  = fst (schedule.get_current_setpoint now self').
Proof.
  intros Hs Hs' Hf Hf' Hd Hd' Hperm Hall Hnd.
  rewrite (get_current_setpoint_day self d now _ Hs Hf Hd).
  rewrite (get_current_setpoint_day self' d' now _ Hs' Hf' Hd').
  simpl.
  assert (Hall' : Forall (fun e => is_Some (event_time e)) events').
  { apply List.Forall_forall. intros e He. rewrite List.Forall_forall in Hall.
    apply Hall. eapply Permutation_in; [symmetry; exact Hperm | exact He]. }
  destruct (day_lookup_latest (datetime_time now) events
              (schedule.clear_override self) Hall) as (r & -> & Hr).
  destruct (day_lookup_latest (datetime_time now) events'
              (schedule.clear_override self') Hall') as (r' & -> & Hr').
  simpl. f_equal.
  apply (latest_at_unique (datetime_time now) events); auto.
  apply (latest_at_perm _ events'); [symmetry; exact Hperm | exact Hr'].
Qed.
(** The theorem at the scenario's Monday and the same Monday written
    backwards, at 08:00. *)
Lemma evaluation_order_insensitive_witness :
  fst (schedule.get_current_setpoint (monday_at 8 0) scenario_object)
  = fst (schedule.get_current_setpoint (monday_at 8 0)
           {| schedule._schedule := Some scenario_reversed;
              schedule._override_active := false;
              schedule._override_until := None |}).
Proof.
  apply (evaluation_order_insensitive _ _ scenario_schedule scenario_reversed
           [PDict [("time", PStr "06:00"); ("temperature", PInt 20)];
            PDict [("time", PStr "22:00"); ("temperature", PInt 17)]]
           [PDict [("time", PStr "22:00"); ("temperature", PInt 17)];
            PDict [("time", PStr "06:00"); ("temperature", PInt 20)]]);
    try reflexivity.
  - apply perm_swap.
  - repeat constructor; eexists; reflexivity.
  - repeat constructor; simpl; intuition discriminate.
Defined.

Section InstalledFacts.

Import schedule.

Lemma dict_get_In (d : dict) (k : string) (v : value) :
  dict_get d k = Some v -> In (k, v) d.
Proof.
  induction d as [|[k' v'] d IH]; simpl; [discriminate|].
  destruct (String.eqb_spec k k') as [->|_].
  - intros [= ->]. left. reflexivity.
  - intros Hd. right. exact (IH Hd).
Qed.

Lemma get_current_setpoint_suppressed (self : Schedule) (now : datetime) :
  override_in_force self now = true ->
  get_current_setpoint now self = (Returned None, self).
Proof.
  intros Hforce. unfold get_current_setpoint, bind, get. cbv beta iota.
  destruct (_schedule self) as [d|]; [|reflexivity]. cbv beta iota.
  destruct (negb (truthy (PDict d))); [reflexivity|].
  rewrite Hforce. reflexivity.
Qed.

Lemma get_current_setpoint_absent (self : Schedule) (d : dict) (now : datetime) :
  _schedule self = Some d ->
  dict_get d (strftime_A_lower now) = None ->
  fst (get_current_setpoint now self) = Returned None.
Proof.
  intros Hs Hday. unfold get_current_setpoint, bind, get, put. cbv beta iota.
  rewrite Hs.
  destruct (negb (truthy (PDict d))); [reflexivity|].
  destruct (override_in_force self now); [reflexivity|].
  rewrite Hday. reflexivity.
Qed.

End InstalledFacts.

(** X8. A [Schedule] fresh from its constructor has no override, and holds
    either no schedule or the loaded mapping in the shape evaluation relies
    on: every weekday's value is a list and every event of it a mapping with
    a time field. *)
Theorem schedule_init_state (safe_load : string -> option value)
    (schedule_yaml : option string) :
  schedule._override_active (schedule.Schedule_init safe_load schedule_yaml) = false
  /\ schedule._override_until (schedule.Schedule_init safe_load schedule_yaml) = None
  /\ (schedule._schedule (schedule.Schedule_init safe_load schedule_yaml) = None
      \/ exists d,
           schedule._schedule (schedule.Schedule_init safe_load schedule_yaml) = Some d
           /\ forall day v, In (day, v) d ->
                exists events,
                  v = PList events
                  /\ forall e, In e events ->
                       exists m t, e = PDict m /\ dict_get m "time" = Some t).
Proof.
  split; [reflexivity|]. split; [reflexivity|]. simpl.
  destruct (schedule._parse_schedule safe_load schedule_yaml) as [d|] eqn:E;
    [right | left; reflexivity].
  exists d. split; [reflexivity|].
  intros day v Hin. exact (parse_schedule_shape safe_load schedule_yaml d day v E Hin).
Qed.

(** X9. A schedule the loader installed, all of whose time fields parse as
    "%H:%M", never raises when evaluated: at every time, under every
    override, evaluation returns an event or [None]. *)
Theorem installed_schedule_evaluates (safe_load : string -> option value)
    (schedule_yaml : option string) (d : dict) (self : schedule.Schedule)
    (now : datetime) :
  schedule._parse_schedule safe_load schedule_yaml = Some d ->
  schedule._schedule self = Some d ->
  (forall day events e, In (day, PList events) d -> In e events -> is_Some (event_time e)) ->
  exists r, fst (schedule.get_current_setpoint now self) = Returned r.
Proof.
  intros Hparse Hs Htimes.
  destruct (schedule.override_in_force self now) eqn:Hforce.
  - rewrite (get_current_setpoint_suppressed self now Hforce). eexists. reflexivity.
  - destruct (dict_get d (strftime_A_lower now)) as [v|] eqn:Hday.
    + rewrite (get_current_setpoint_day self d now v Hs Hforce Hday). simpl.
      pose proof (dict_get_In _ _ _ Hday) as Hin.
      destruct (parse_schedule_shape safe_load schedule_yaml d _ v Hparse Hin)
        as (events & -> & _).
      assert (Hall : Forall (fun e => is_Some (event_time e)) events).
      { apply List.Forall_forall. intros e He. exact (Htimes _ events e Hin He). }
      destruct (day_lookup_latest (datetime_time now) events
                  (schedule.clear_override self) Hall) as (r & -> & _).
      eexists. reflexivity.
    + rewrite (get_current_setpoint_absent self d now Hs Hday). eexists. reflexivity.
Qed.

(** The theorem at the scenario's schedule, Monday 08:00. *)
Lemma installed_schedule_evaluates_witness :
  exists r, fst (schedule.get_current_setpoint (monday_at 8 0) scenario_object) = Returned r.
Proof.
  apply (installed_schedule_evaluates (fun _ => Some (PDict scenario_schedule))
           (Some "monday: [...]") scenario_schedule scenario_object (monday_at 8 0)).
  - reflexivity.
  - reflexivity.
  - intros day events e [[= <- <-]|[]] [<-|[<-|[]]]; eexists; reflexivity.
Defined.

Section TieFacts.

Import schedule.

Lemma combine_same_key (t : time) (keys : list time) (events : list value) :
  Forall keyed (combine keys events) ->
  length keys = length events ->
  Forall (fun e => event_time e = Some t) events ->
  combine keys events = map (pair t) events.
Proof.
  revert keys. induction events as [|e events IH]; intros [|k keys] Hk Hl Hall;
    simpl in *; try discriminate; try reflexivity.
  inversion Hk as [|? ? Hke Hk']; subst.
  inversion Hall as [|? ? He Hall']; subst.
  unfold keyed in Hke. simpl in Hke.
  assert (k = t) by congruence. subst k.
  f_equal. apply IH; auto.
Qed.

Lemma sort_by_key_same_key (t : time) (events : list value) :
  sort_by_key (map (pair t) events) = map (pair t) events.
Proof.
  induction events as [|e events IH]; simpl; [reflexivity|].
  rewrite IH. destruct events as [|e' events]; simpl; [reflexivity|].
  rewrite Z.ltb_irrefl. reflexivity.
Qed.

Lemma scan_keyed_all_due (t now_time : time) (events : list value) (last : value)
    (cur : option value) :
  t <= now_time ->
  scan_keyed now_time (map (pair t) (events ++ [last])) cur = Some last.
Proof.
  intros Hle. apply Z.leb_le in Hle. revert cur.
  induction events as [|e events IH]; intros cur; simpl; rewrite Hle; [reflexivity|].
  apply IH.
Qed.

End TieFacts.

(** X29. Between events of the same time the one written last wins. When all
    events of today's list carry the same time of day, and that time is not
    after [now], evaluation returns the last event of the list. *)
Theorem equal_times_last_wins (self : schedule.Schedule) (d : dict) (now : datetime)
    (events : list value) (last : value) (t : time) :
  schedule._schedule self = Some d ->
  schedule.override_in_force self now = false ->
  dict_get d (strftime_A_lower now) = Some (PList (events ++ [last])) ->
  Forall (fun e => event_time e = Some t) (events ++ [last]) ->
  t <= datetime_time now ->
  fst (schedule.get_current_setpoint now self) = Returned (Some last).
Proof.
  intros Hs Hforce Hday Hall Hle.
  rewrite (get_current_setpoint_day self d now _ Hs Hforce Hday). cbn [fst].
  assert (Hsome : Forall (fun e => is_Some (event_time e)) (events ++ [last])).
  { eapply List.Forall_impl; [|exact Hall]. intros e He. rewrite He. eexists. reflexivity. }
  destruct (day_lookup (datetime_time now) (events ++ [last])
              (schedule.clear_override self) Hsome) as (keys & Hk & Hl & ->).
  cbn [fst].
  rewrite (combine_same_key t keys _ Hk Hl Hall).
  rewrite sort_by_key_same_key.
  rewrite (scan_keyed_all_due t (datetime_time now) events last None Hle).
  reflexivity.
Qed.

(** The theorem at two events written for 06:00, asked at 08:00. *)
Lemma equal_times_last_wins_witness :
  fst (schedule.get_current_setpoint (monday_at 8 0)
         {| schedule._schedule :=
              Some [("monday",
                     PList ([PDict [("time", PStr "06:00"); ("temperature", PInt 20)]]
                            ++ [PDict [("time", PStr "6:00"); ("temperature", PInt 21)]]))];
            schedule._override_active := false;
            schedule._override_until := None |})
  = Returned (Some (PDict [("time", PStr "6:00"); ("temperature", PInt 21)])).
Proof.
  apply (equal_times_last_wins _
           [("monday",
             PList ([PDict [("time", PStr "06:00"); ("temperature", PInt 20)]]
                    ++ [PDict [("time", PStr "6:00"); ("temperature", PInt 21)]]))]
           (monday_at 8 0)
           [PDict [("time", PStr "06:00"); ("temperature", PInt 20)]]
           (PDict [("time", PStr "6:00"); ("temperature", PInt 21)])
           (mk_time 6 0)); try reflexivity.
  - repeat constructor.
  - vm_compute. discriminate.
Defined.

(* ===================================================================== *)
(** ** Further properties of the store and of the sensors                 *)
(* ===================================================================== *)



(** X11. Saving never raises, whether the write is accepted or refused; it
    keeps the ledger in the store, and on the disk it touches no file but the
    store's own. *)
Theorem save_frame (J : Json) (self : store.Store) (fs : store.FileSystem)
    (ledger : gmap string runtime_entry) :
  fst (store.async_save ledger (self, fs)) = Returned tt
  /\ fst (snd (store.async_save ledger (self, fs))) = store.set_data ledger self
  /\ store.refused (snd (snd (store.async_save ledger (self, fs)))) = store.refused fs
  /\ forall path,
       path <> store._storage_path self ->
       store.files (snd (snd (store.async_save ledger (self, fs)))) !! path
       = store.files fs !! path.
Proof.
  unfold store.async_save, bind, get, put. simpl.
  destruct (store.refused fs (store._storage_path self)); simpl.
  - repeat split.
  - repeat split. intros path Hne. apply lookup_insert_ne. congruence.
Qed.

(** The theorem for another file of the disk. *)
Lemma save_frame_witness :
  store.files (snd (snd (store.async_save example_ledger (example_store, writable_disk))))
    !! ".storage/core.config"
  = store.files writable_disk !! ".storage/core.config".
Proof.
  apply (proj2 (proj2 (proj2
           (save_frame items_json example_store writable_disk example_ledger)))).
  discriminate.
Defined.

(** X12. The last save wins: after two accepted saves the store loads the
    second ledger, provided [json.load] reads back what [json.dump] writes
    for it. *)
Theorem last_save_wins (J : Json) (self : store.Store) (fs : store.FileSystem)
    (first second : gmap string runtime_entry) :
  store.refused fs (store._storage_path self) = false ->
  json_load (json_dump second) = Some second ->
  fst (store.async_load
         (snd (store.async_save second (snd (store.async_save first (self, fs))))))
  = Returned second.
Proof.
  intros Hopen Hjson.
  unfold store.async_save, store.async_load, bind, get, put, ret. simpl.
  rewrite Hopen. simpl. rewrite Hopen. simpl.
  rewrite lookup_insert_eq, Hjson. reflexivity.
Qed.

(** The theorem at the empty ledger saved first, the example's second. *)
Lemma last_save_wins_witness :
  fst (store.async_load
         (snd (store.async_save example_ledger
                 (snd (store.async_save ∅ (example_store, writable_disk))))))
  = Returned example_ledger.
Proof.
  apply (last_save_wins items_json example_store writable_disk ∅ example_ledger).
  - reflexivity.
  - vm_compute. reflexivity.
Defined.

(** X13. A refused save loses the ledger: the [IOError] is swallowed, the file
    is left as it was, and the next load returns what a load before the save
    would have returned. *)
Theorem refused_save_keeps_file (J : Json) (self : store.Store) (fs : store.FileSystem)
    (ledger : gmap string runtime_entry) :
  store.refused fs (store._storage_path self) = true ->
  snd (snd (store.async_save ledger (self, fs))) = fs
  /\ fst (store.async_load (snd (store.async_save ledger (self, fs))))
     = fst (store.async_load (self, fs)).
Proof.
  intros Hrefused.
  unfold store.async_save, store.async_load, bind, get, put, ret. simpl.
  rewrite Hrefused. simpl. split; reflexivity.
Qed.

(** The theorem on the disk that refuses every write. *)
Lemma refused_save_keeps_file_witness :
  snd (snd (store.async_save example_ledger (example_store, read_only_disk))) = read_only_disk
  /\ fst (store.async_load (snd (store.async_save example_ledger (example_store, read_only_disk))))
     = fst (store.async_load (example_store, read_only_disk)).
Proof.
  apply (refused_save_keeps_file items_json example_store read_only_disk example_ledger).
  reflexivity.
Defined.

Section SensorFacts.

Import sensor.
Context `{Json}.

(** What an update of either sensor does, in terms of the load. *)
Lemma heating_update_run (w : World) :
  HeatingRuntimeSensor_async_update w
  = (Returned tt,
     {| self := {| _attr_unique_id := _attr_unique_id (self w);
                   _attr_native_value :=
                     Some (heating_of
                             (store._data (fst (snd (store.async_load (_store w, disk w)))))
                             (date_isoformat (wall_clock w))) |};
        _store := fst (snd (store.async_load (_store w, disk w)));
        disk := disk w;
        wall_clock := wall_clock w |}).
Proof. reflexivity. Qed.

Lemma cooling_update_run (w : World) :
  CoolingRuntimeSensor_async_update w
  = (Returned tt,
     {| self := {| _attr_unique_id := _attr_unique_id (self w);
                   _attr_native_value :=
                     Some (cooling_of
                             (store._data (fst (snd (store.async_load (_store w, disk w)))))
                             (date_isoformat (wall_clock w))) |};
        _store := fst (snd (store.async_load (_store w, disk w)));
        disk := disk w;
        wall_clock := wall_clock w |}).
Proof. reflexivity. Qed.

End SensorFacts.

(** X14. After an accepted save of a ledger, an update of the heating sensor
    shows today's heating hours of that ledger, and an update of the cooling
    sensor today's cooling hours, zero when the ledger has no entry for
    today; neither update raises nor writes to the disk. *)
Theorem sensors_show_saved_ledger (J : Json) (w : sensor.World)
    (ledger : gmap string runtime_entry) :
  store.refused (sensor.disk w) (store._storage_path (sensor._store w)) = false ->
  json_load (json_dump ledger) = Some ledger ->
  let saved := snd (store.async_save ledger (sensor._store w, sensor.disk w)) in
  let w' := {| sensor.self := sensor.self w; sensor._store := fst saved;
               sensor.disk := snd saved; sensor.wall_clock := sensor.wall_clock w |} in
  let today := date_isoformat (sensor.wall_clock w) in
  fst (sensor.HeatingRuntimeSensor_async_update w') = Returned tt
  /\ sensor._attr_native_value (sensor.self (snd (sensor.HeatingRuntimeSensor_async_update w')))
     = Some (default 0%Q (heating_hours <$> ledger !! today))
  /\ fst (sensor.CoolingRuntimeSensor_async_update w') = Returned tt
  /\ sensor._attr_native_value (sensor.self (snd (sensor.CoolingRuntimeSensor_async_update w')))
     = Some (default 0%Q (cooling_hours <$> ledger !! today))
  /\ sensor.disk (snd (sensor.HeatingRuntimeSensor_async_update w')) = snd saved
  /\ sensor.disk (snd (sensor.CoolingRuntimeSensor_async_update w')) = snd saved.
Proof.
  intros Hopen Hjson saved w' today.
  assert (Hload : store._data (fst (snd (store.async_load saved))) = ledger).
  { unfold saved, store.async_save, store.async_load, bind, get, put, ret. simpl.
    rewrite Hopen. simpl. rewrite lookup_insert_eq, Hjson. reflexivity. }
  rewrite heating_update_run, cooling_update_run. subst w'.
  cbn [fst snd sensor.self sensor._attr_native_value sensor.disk sensor._store
       sensor.wall_clock].
  replace (fst saved, snd saved) with saved by (destruct saved; reflexivity).
  rewrite Hload. unfold sensor.heating_of, sensor.cooling_of. fold today.
  destruct (ledger !! today); repeat split.
Qed.

(** The theorem at the example's ledger, read on Monday 2024-01-01. *)
Lemma sensors_show_saved_ledger_witness :
  let w := example_sensor_world (sensor.HeatingRuntimeSensor_init "entry") writable_disk in
  let saved := snd (store.async_save example_ledger (sensor._store w, sensor.disk w)) in
  let w' := {| sensor.self := sensor.self w; sensor._store := fst saved;
               sensor.disk := snd saved; sensor.wall_clock := sensor.wall_clock w |} in
  let today := date_isoformat (sensor.wall_clock w) in
  fst (sensor.HeatingRuntimeSensor_async_update w') = Returned tt
  /\ sensor._attr_native_value (sensor.self (snd (sensor.HeatingRuntimeSensor_async_update w')))
     = Some (default 0%Q (heating_hours <$> example_ledger !! today))
  /\ fst (sensor.CoolingRuntimeSensor_async_update w') = Returned tt
  /\ sensor._attr_native_value (sensor.self (snd (sensor.CoolingRuntimeSensor_async_update w')))
     = Some (default 0%Q (cooling_hours <$> example_ledger !! today))
  /\ sensor.disk (snd (sensor.HeatingRuntimeSensor_async_update w')) = snd saved
  /\ sensor.disk (snd (sensor.CoolingRuntimeSensor_async_update w')) = snd saved.
Proof.
  apply (sensors_show_saved_ledger items_json
           (example_sensor_world (sensor.HeatingRuntimeSensor_init "entry") writable_disk)
           example_ledger).
  - reflexivity.
  - vm_compute. reflexivity.
Defined.



(* ===================================================================== *)
(** ** Further properties of the safety guard                             *)
(* ===================================================================== *)

Section GuardCases.

Import climate.
Context `{Json}.
Variable DOMAIN : string.

Ltac split_cases :=
  repeat match goal with
         | |- context [match ?x with _ => _ end] =>
             match type of x with
             | bool => destruct x eqn:?
             | option _ => destruct x eqn:?
             end; simpl
         end.

(** Every run of the guard ends in one of four ways: nothing changed, the
    safety state cleared, or SafetyOverride entered for heat or for cool, the
    last three with one notification put on record. A [TypeError] (a bound
    missing in SafetyOverride) changes nothing. *)
Lemma guard_cases (w : Hass) :
  snd (_async_check_safety_temp DOMAIN w) = w
  \/ exists active mode message,
       _async_check_safety_temp DOMAIN w
       = (Returned tt,
          record_call (notification DOMAIN message)
            (set_entity (set_safety active mode (entity w)) w))
       /\ ((active = false /\ mode = None)
           \/ (active = true /\ _safety_active (entity w) = false
               /\ (mode = Some HEAT \/ mode = Some COOL))).
Proof.
  unfold _async_check_safety_temp, _create_notification, services_async_call,
    heat_recovered, cool_recovered, plus_buffer, minus_buffer,
    self_, assign, never_awaited, bind, get, put, modify, ret, raise.
  simpl.
  split_cases; try (left; reflexivity);
    right; do 3 eexists; (split; [reflexivity|]); auto.
Qed.

End GuardCases.

(** X16. Without a current temperature (no state object yet, or a state that
    carries none) a safety evaluation does nothing: it returns, and the safety
    state, the calls and all the rest are as before. *)
Theorem guard_without_temperature (J : Json) (DOMAIN : string) (w : climate.Hass) :
  climate.current_temperature (climate.entity w) = None ->
  climate._async_check_safety_temp DOMAIN w = (Returned tt, w).
Proof.
  intros Htemp.
  unfold climate._async_check_safety_temp, climate.self_, bind, get, ret. simpl.
  rewrite Htemp. destruct (climate.hvac_mode (climate.entity w)); reflexivity.
Qed.

(** The theorem at the thermostat that reports "unavailable". *)
Lemma guard_without_temperature_witness :
  climate._async_check_safety_temp example_domain unavailable_world
  = (Returned tt, unavailable_world).
Proof.
  apply (guard_without_temperature items_json example_domain unavailable_world).
  reflexivity.
Defined.

(** X17. In the Normal state the guard acts only on a thermostat that is off
    and out of bounds: whenever an evaluation changes anything, the reported
    mode is "off" and the current temperature is strictly below the
    configured minimum or strictly above the configured maximum. In
    particular nothing happens when no bound is configured. *)
Theorem guard_acts_only_when_off (J : Json) (DOMAIN : string) (w : climate.Hass) :
  climate._safety_active (climate.entity w) = false ->
  fst (climate._async_check_safety_temp DOMAIN w) = Returned tt
  /\ (snd (climate._async_check_safety_temp DOMAIN w) = w
      \/ (climate.hvac_mode (climate.entity w) = Some "off"
          /\ exists temp,
               climate.current_temperature (climate.entity w) = Some temp
               /\ ((exists lo, climate._safety_min_temp (climate.entity w) = Some lo
                               /\ (temp < lo)%Q)
                   \/ (exists hi, climate._safety_max_temp (climate.entity w) = Some hi
                                  /\ (hi < temp)%Q)))).
Proof.
  intros Hact.
  unfold climate._async_check_safety_temp, climate._create_notification,
    climate.services_async_call, climate.self_, climate.assign, never_awaited,
    bind, get, put, modify, ret. simpl.
  destruct (climate.hvac_mode (climate.entity w)) as [mode|] eqn:Hmode;
    [|split; [reflexivity | left; reflexivity]].
  destruct (climate.current_temperature (climate.entity w)) as [temp|] eqn:Htemp;
    [|split; [reflexivity | left; reflexivity]].
  rewrite Hact.
  destruct (String.eqb_spec mode "off") as [->|_];
    [|split; [reflexivity | left; reflexivity]].
  unfold climate.below_min, climate.above_max.
  destruct (climate._safety_min_temp (climate.entity w)) as [lo|] eqn:Hmin.
  - destruct (Qltb temp lo) eqn:Hlo.
    + split; [reflexivity|]. right. split; [reflexivity|]. exists temp.
      split; [reflexivity|]. left. exists lo. split; [reflexivity|].
      apply Qltb_lt. exact Hlo.
    + destruct (climate._safety_max_temp (climate.entity w)) as [hi|] eqn:Hmax;
        [|split; [reflexivity | left; reflexivity]].
      destruct (Qltb hi temp) eqn:Hhi; [|split; [reflexivity | left; reflexivity]].
      split; [reflexivity|]. right. split; [reflexivity|]. exists temp.
      split; [reflexivity|]. right. exists hi. split; [reflexivity|].
      apply Qltb_lt. exact Hhi.
  - destruct (climate._safety_max_temp (climate.entity w)) as [hi|] eqn:Hmax;
      [|split; [reflexivity | left; reflexivity]].
    destruct (Qltb hi temp) eqn:Hhi; [|split; [reflexivity | left; reflexivity]].
    split; [reflexivity|]. right. split; [reflexivity|]. exists temp.
    split; [reflexivity|]. right. exists hi. split; [reflexivity|].
    apply Qltb_lt. exact Hhi.
Qed.

(** The theorem at a thermostat that heats at 14 degrees, minimum 15. *)
Lemma guard_acts_only_when_off_witness :
  let w := example_world
             (example_entity (example_state "heat" (Some 14%Q) None)
                (Some 15%Q) (Some 30%Q) false None None None) in
  fst (climate._async_check_safety_temp example_domain w) = Returned tt
  /\ (snd (climate._async_check_safety_temp example_domain w) = w
      \/ (climate.hvac_mode (climate.entity w) = Some "off"
          /\ exists temp,
               climate.current_temperature (climate.entity w) = Some temp
               /\ ((exists lo, climate._safety_min_temp (climate.entity w) = Some lo
                               /\ (temp < lo)%Q)
                   \/ (exists hi, climate._safety_max_temp (climate.entity w) = Some hi
                                  /\ (hi < temp)%Q)))).
Proof.
  intros w. apply (guard_acts_only_when_off items_json example_domain w). reflexivity.
Defined.



(** X19. The safety flag and the triggered mode stay in step. A fresh entity
    has both unset, and if they agree before an evaluation of the guard (both
    unset, or the flag set with heat or cool), they agree after it, whichever
    branch is taken. *)
Theorem guard_keeps_safety_consistent (J : Json) :
  (forall safe_load entity_id lo hi schedule_yaml,
     safety_consistent (climate.EnhancedThermostat_init safe_load entity_id lo hi schedule_yaml))
  /\ (forall (DOMAIN : string) (w : climate.Hass),
        safety_consistent (climate.entity w) ->
        safety_consistent
          (climate.entity (snd (climate._async_check_safety_temp DOMAIN w)))).
Proof.
  split.
  - intros. left. split; reflexivity.
  - intros DOMAIN w Hc.
    destruct (guard_cases DOMAIN w) as [-> | (active & mode & message & -> & Hcase)];
      [exact Hc|].
    unfold safety_consistent. simpl.
    destruct Hcase as [[-> ->] | (-> & _ & Hmode)]; [left | right]; auto.
Qed.

(** The theorem at the activation on a thermostat that is off at 14 degrees. *)
Lemma guard_keeps_safety_consistent_witness :
  let w := example_world
             (example_entity (example_state "off" (Some 14%Q) None)
                (Some 15%Q) (Some 30%Q) false None None None) in
  safety_consistent (climate.entity (snd (climate._async_check_safety_temp example_domain w))).
Proof.
  intros w. apply (proj2 (guard_keeps_safety_consistent items_json) example_domain w).
  left. split; reflexivity.
Defined.

(** X20. The guard touches nothing but the safety flag, the triggered mode
    and the record of calls: the thermostat's state object, the bounds, the
    schedule, the store, the ledger, the last action and its timestamp, the
    clock and the files are the same after every evaluation. *)
Theorem guard_touches_safety_only (J : Json) (DOMAIN : string) (w : climate.Hass) :
  exists active mode,
    climate.entity (snd (climate._async_check_safety_temp DOMAIN w))
    = climate.set_safety active mode (climate.entity w)
    /\ climate.wall_clock (snd (climate._async_check_safety_temp DOMAIN w))
       = climate.wall_clock w
    /\ climate.file_system (snd (climate._async_check_safety_temp DOMAIN w))
       = climate.file_system w.
Proof.
  destruct (guard_cases DOMAIN w) as [-> | (active & mode & message & -> & _)].
  - exists (climate._safety_active (climate.entity w)),
           (climate._safety_triggered_mode (climate.entity w)).
    split; [destruct (climate.entity w); reflexivity|]. split; reflexivity.
  - exists active, mode. repeat split.
Qed.

(** X21. The guard does not settle on a thermostat that stays off. Evaluated
    twice on the same snapshot (Normal state, mode off, temperature strictly
    below the minimum), it enters SafetyOverride(Heat) and then takes the
    unchanged mode for a manual override: the entity is back as it was, and
    two notifications are on record, the activation and the manual override. *)
Theorem guard_twice_on_same_snapshot (J : Json) (DOMAIN : string) (w : climate.Hass)
    (temp lo : Q) :
  climate._safety_active (climate.entity w) = false ->
  climate._safety_triggered_mode (climate.entity w) = None ->
  climate.hvac_mode (climate.entity w) = Some "off" ->
  climate.current_temperature (climate.entity w) = Some temp ->
  climate._safety_min_temp (climate.entity w) = Some lo ->
  (temp < lo)%Q ->
  climate._async_check_safety_temp DOMAIN (snd (climate._async_check_safety_temp DOMAIN w))
  = (Returned tt,
     {| climate.entity := climate.entity w;
        climate.service_calls :=
          climate.service_calls w
          ++ [climate.notification DOMAIN (climate.msg_heating_on temp lo);
              climate.notification DOMAIN climate.msg_manual_override];
        climate.wall_clock := climate.wall_clock w;
        climate.file_system := climate.file_system w |}).
Proof.
  intros Hact Htrig Hmode Htemp Hmin Hlt.
  rewrite (guard_activates_heat DOMAIN w temp lo Hact Hmode Htemp Hmin Hlt). simpl.
  rewrite (guard_manual_override DOMAIN _ climate.HEAT "off" temp);
    try reflexivity; try assumption; try discriminate.
  unfold climate.record_call, climate.set_entity. simpl.
  rewrite <- app_assoc. simpl. f_equal. f_equal.
  destruct (climate.entity w); simpl in *. subst. reflexivity.
Qed.

(** The theorem at 14 degrees with the minimum at 15. *)
Lemma guard_twice_on_same_snapshot_witness :
  let w := example_world
             (example_entity (example_state "off" (Some 14%Q) None)
                (Some 15%Q) (Some 30%Q) false None None None) in
  climate._async_check_safety_temp example_domain
    (snd (climate._async_check_safety_temp example_domain w))
  = (Returned tt,
     {| climate.entity := climate.entity w;
        climate.service_calls :=
          climate.service_calls w
          ++ [climate.notification example_domain (climate.msg_heating_on 14 15);
              climate.notification example_domain climate.msg_manual_override];
        climate.wall_clock := climate.wall_clock w;
        climate.file_system := climate.file_system w |}).
Proof.
  intros w.
  apply (guard_twice_on_same_snapshot items_json example_domain w 14%Q 15%Q);
    reflexivity.
Defined.

(* ===================================================================== *)
(** ** Further properties of the handlers and of the runtime accounting   *)
(* ===================================================================== *)

(** X22. The handler of a state change never reaches the safety guard. For no
    new state it returns at once; for a new state it records the state object
    and raises [NameError] in the runtime update. Either way the safety flag,
    the triggered mode, the ledger, the last action and the record of calls
    are as before. *)
Theorem device_update_never_reaches_guard (J : Json) (DOMAIN : string)
    (new_state : option climate.State) (w : climate.Hass) :
  let w' := snd (climate._async_update_underlying_thermostat DOMAIN new_state w) in
  (forall st, new_state = Some st ->
     fst (climate._async_update_underlying_thermostat DOMAIN new_state w)
     = Raised (NameError "datetime")
     /\ climate._underlying_thermostat_state (climate.entity w') = Some st)
  /\ (new_state = None ->
      climate._async_update_underlying_thermostat DOMAIN new_state w = (Returned tt, w))
  /\ climate._safety_active (climate.entity w') = climate._safety_active (climate.entity w)
  /\ climate._safety_triggered_mode (climate.entity w')
     = climate._safety_triggered_mode (climate.entity w)
  /\ climate._runtime_data (climate.entity w') = climate._runtime_data (climate.entity w)
  /\ climate._last_hvac_action (climate.entity w') = climate._last_hvac_action (climate.entity w)
  /\ climate.service_calls w' = climate.service_calls w.
Proof.
  intros w'. subst w'. destruct new_state as [st|].
  - split; [intros st' [= <-]; split; reflexivity|].
    split; [discriminate|]. repeat split.
  - split; [discriminate|]. split; [reflexivity|]. repeat split.
Qed.

(** The theorem at a snapshot that would call for safety heating. *)
Lemma device_update_never_reaches_guard_witness :
  let w := example_world
             (example_entity (example_state "off" (Some 16%Q) None)
                (Some 15%Q) (Some 30%Q) false None None None) in
  let cold := example_state "off" (Some 14%Q) None in
  fst (climate._async_update_underlying_thermostat example_domain (Some cold) w)
  = Raised (NameError "datetime")
  /\ climate._underlying_thermostat_state
       (climate.entity
          (snd (climate._async_update_underlying_thermostat example_domain (Some cold) w)))
     = Some cold.
Proof.
  intros w cold.
  apply (proj1 (device_update_never_reaches_guard items_json example_domain (Some cold) w)
           cold).
  reflexivity.
Defined.

Section TickFacts.

Import climate.
Context `{Json}.

(** A setpoint asks for nothing when its mode is absent or is the reported
    state, and its temperature is absent or equals the target. *)
Lemma differs_from_mode_same (s : string) : differs_from_mode (PStr s) (Some s) = false.
Proof. simpl. rewrite String.eqb_refl. reflexivity. Qed.

End TickFacts.

(** X23. A tick asks nothing of the device when the schedule has nothing new
    to say. If the override is in force the tick returns and the world is as
    before. If evaluation returns a setpoint whose mode is absent or is the
    reported state, and whose temperature is absent or is a number equal to
    the current target, the tick returns without raising and without a call:
    only the schedule object is written back, as evaluation left it. *)
Theorem tick_without_change (J : Json) (w : climate.Hass) (now : datetime) :
  (schedule.override_in_force (climate._schedule (climate.entity w)) now = true ->
   climate._async_apply_schedule now w = (Returned tt, w))
  /\ (forall (setpoint : dict) (s' : schedule.Schedule),
        schedule.get_current_setpoint now (climate._schedule (climate.entity w))
        = (Returned (Some (PDict setpoint)), s') ->
        (dict_get setpoint "hvac_mode" = None
         \/ exists mode, dict_get setpoint "hvac_mode" = Some (PStr mode)
                         /\ climate.hvac_mode (climate.entity w) = Some mode) ->
        (dict_get setpoint "temperature" = None
         \/ exists v a b, dict_get setpoint "temperature" = Some v
                          /\ as_number v = Some a
                          /\ climate.target_temperature (climate.entity w) = Some b
                          /\ (a == b)%Q) ->
        climate._async_apply_schedule now w
        = (Returned tt,
           climate.set_entity (climate.set_schedule s' (climate.entity w)) w)).
Proof.
  split.
  - intros Hforce.
    unfold climate._async_apply_schedule, climate.on_schedule, zoom, bind.
    rewrite (get_current_setpoint_suppressed _ now Hforce). simpl.
    destruct w as [e calls clock fs]. destruct e. reflexivity.
  - intros setpoint s' Heval Hmode Htemp.
    unfold climate._async_apply_schedule, climate.on_schedule, zoom, bind at 1.
    rewrite Heval.
    destruct setpoint as [|item setpoint]; [reflexivity|].
    cbn [truthy]. set (sp := item :: setpoint) in *.
    unfold climate.value_get, climate.self_, bind, get, ret. cbv beta iota.
    assert (Hm : truthy (default PNone (dict_get sp "hvac_mode"))
                 && climate.differs_from_mode (default PNone (dict_get sp "hvac_mode"))
                      (climate.hvac_mode
                         (climate.entity
                            (climate.set_entity
                               (climate.set_schedule s' (climate.entity w)) w)))
                 = false).
    { destruct Hmode as [-> | (mode & -> & Hrep)]; [reflexivity|].
      simpl default. apply andb_false_iff. right.
      assert (Hrep' : climate.hvac_mode
                        (climate.entity
                           (climate.set_entity
                              (climate.set_schedule s' (climate.entity w)) w))
                      = Some mode) by exact Hrep.
      rewrite Hrep'. apply differs_from_mode_same. }
    rewrite Hm. cbv beta iota.
    assert (Ht : truthy (default PNone (dict_get sp "temperature"))
                 && climate.differs_from_temperature
                      (default PNone (dict_get sp "temperature"))
                      (climate.target_temperature
                         (climate.entity
                            (climate.set_entity
                               (climate.set_schedule s' (climate.entity w)) w)))
                 = false).
    { destruct Htemp as [-> | (v & a & b & -> & Ha & Hb & Heq)]; [reflexivity|].
      simpl default. apply andb_false_iff. right.
      unfold climate.differs_from_temperature. rewrite Ha.
      assert (Hb' : climate.target_temperature
                      (climate.entity
                         (climate.set_entity
                            (climate.set_schedule s' (climate.entity w)) w))
                    = Some b) by exact Hb.
      rewrite Hb'. apply negb_false_iff. apply Qeq_bool_iff. exact Heq. }
    rewrite Ht. reflexivity.
Qed.

(** The theorem at the scenario's schedule, Monday 08:00, with the target
    already at 20. *)
Lemma tick_without_change_witness :
  let w := {| climate.entity :=
                example_entity
                  {| climate.state := "heat";
                     climate.attr_current_temperature := Some 19%Q;
                     climate.attr_temperature := Some 20%Q;
                     climate.attr_hvac_action := Some "heating";
                     climate.attr_temperature_unit := None;
                     climate.attr_supported_features := None |}
                  (Some 15%Q) (Some 30%Q) false None None None;
              climate.service_calls := [];
              climate.wall_clock := monday_at 8 0;
              climate.file_system := writable_disk |} in
  climate._async_apply_schedule (monday_at 8 0) w
  = (Returned tt,
     climate.set_entity (climate.set_schedule scenario_object (climate.entity w)) w).
Proof.
  intros w.
  apply (proj2 (tick_without_change items_json w (monday_at 8 0))
           [("time", PStr "06:00"); ("temperature", PInt 20)] scenario_object).
  - reflexivity.
  - left. reflexivity.
  - right. exists (PInt 20), (inject_Z 20), 20%Q.
    repeat split; reflexivity.
Defined.

Section RuntimeFacts.

Import climate.
Context `{Json}.


(** The body after the first line on a transition: the ledger is charged, the
    save is not awaited, the last action and timestamp move on. *)
Lemma update_runtime_at_transition (now timestamp : datetime) (new_state : State)
    (w : Hass) (last : string) (st : store.Store) :
  _last_hvac_action (entity w) = Some last ->
  last <> "" ->
  _last_action_timestamp (entity w) = Some timestamp ->
  attr_hvac_action new_state <> Some last ->
  _store (entity w) = Some st ->
  update_runtime_at now new_state w
  = (Returned tt,
     set_entity
       (set_last (attr_hvac_action new_state) (Some now)
          (set_runtime_data
             (accrue (date_isoformat now) last (hours_between now timestamp)
                (_runtime_data (entity w)))
             (entity w)))
       w).
Proof.
  intros Hlast Hne Hts Hdiff Hst.
  unfold update_runtime_at, self_, assign, never_awaited, bind, get, modify, ret.
  simpl. rewrite Hlast, Hts. simpl.
  destruct (String.eqb_spec last "") as [->|_]; [congruence|]. simpl.
  destruct (bool_decide_reflect (attr_hvac_action new_state = Some last))
    as [Heq|_]; [contradiction|].
  simpl. rewrite Hst. simpl. reflexivity.
Qed.

(** The body after the first line when nothing is to be charged. *)
Lemma update_runtime_at_baseline (now : datetime) (new_state : State) (w : Hass) :
  (_last_hvac_action (entity w) = None
   \/ _last_hvac_action (entity w) = Some ""
   \/ _last_action_timestamp (entity w) = None
   \/ _last_hvac_action (entity w) = attr_hvac_action new_state) ->
  update_runtime_at now new_state w
  = (Returned tt,
     set_entity (set_last (attr_hvac_action new_state) (Some now) (entity w)) w).
Proof.
  intros Hcase.
  unfold update_runtime_at, self_, assign, never_awaited, bind, get, modify, ret.
  simpl.
  destruct (_last_hvac_action (entity w)) as [last|] eqn:Hlast; [|reflexivity].
  destruct (_last_action_timestamp (entity w)) as [ts|] eqn:Hts; [|reflexivity].
  destruct (String.eqb_spec last "") as [->|Hne]; [reflexivity|]. simpl.
  destruct Hcase as [[=] | [[= ->] | [[=] | Hsame]]]; [congruence|].
  destruct (bool_decide_reflect (attr_hvac_action new_state = Some last))
    as [_|Hdiff]; [reflexivity|]. congruence.
Qed.

End RuntimeFacts.

(** X24. The first observation only sets the baseline. When no previous
    action or no previous timestamp is known, lines 243 to 261 of the runtime
    update charge nothing: the ledger is as before, and the reported action
    and [now] become the last action and its timestamp. *)
Theorem first_observation_sets_baseline (J : Json) (now : datetime)
    (new_state : climate.State) (w : climate.Hass) :
  climate._last_hvac_action (climate.entity w) = None
  \/ climate._last_action_timestamp (climate.entity w) = None ->
  climate.update_runtime_at now new_state w
  = (Returned tt,
     climate.set_entity
       (climate.set_last (climate.attr_hvac_action new_state) (Some now) (climate.entity w))
       w).
Proof.
  intros Hfirst. apply update_runtime_at_baseline. tauto.
Qed.

(** The theorem at an entity fresh from its constructor. *)
Lemma first_observation_sets_baseline_witness :
  let w := example_world
             (example_entity (example_state "heat" (Some 19%Q) None)
                (Some 15%Q) (Some 30%Q) false None None None) in
  let heating := example_state "heat" (Some 19%Q) (Some "heating") in
  climate.update_runtime_at (monday_at 7 0) heating w
  = (Returned tt,
     climate.set_entity
       (climate.set_last (Some "heating") (Some (monday_at 7 0)) (climate.entity w)) w).
Proof.
  intros w heating.
  apply (first_observation_sets_baseline items_json (monday_at 7 0) heating w).
  left. reflexivity.
Defined.



(** X26. The runtime update never persists the ledger and never calls a
    service: [Store.async_save] is called without being awaited, so after
    lines 243 to 261 the files and the record of calls are as before, for
    every state and every time; nor are the safety state and the schedule
    touched. *)
Theorem runtime_update_never_persists (J : Json) (now : datetime)
    (new_state : climate.State) (w : climate.Hass) :
  climate.file_system (snd (climate.update_runtime_at now new_state w))
  = climate.file_system w
  /\ climate.service_calls (snd (climate.update_runtime_at now new_state w))
     = climate.service_calls w
  /\ climate._safety_active (climate.entity (snd (climate.update_runtime_at now new_state w)))
     = climate._safety_active (climate.entity w)
  /\ climate._safety_triggered_mode
       (climate.entity (snd (climate.update_runtime_at now new_state w)))
     = climate._safety_triggered_mode (climate.entity w)
  /\ climate._schedule (climate.entity (snd (climate.update_runtime_at now new_state w)))
     = climate._schedule (climate.entity w).
Proof.
  unfold climate.update_runtime_at, climate.self_, climate.assign, never_awaited,
    bind, get, modify, ret, raise.
  simpl.
  destruct (climate._last_hvac_action (climate.entity w)) as [last|];
    [|repeat split].
  destruct (climate._last_action_timestamp (climate.entity w)) as [ts|];
    [|repeat split].
  destruct (negb (last =? "")%string); [|repeat split].
  destruct (negb (bool_decide (climate.attr_hvac_action new_state = Some last)));
    [|repeat split].
  simpl.
  destruct (climate._store (climate.entity w)); repeat split.
Qed.



(** X28. A transition away from an action that is neither heating nor cooling
    (idle, off, fan) charges nothing: after lines 243 to 261 every day shows
    the heating and cooling hours it showed before, a day without entry
    counting as zeros. *)
Theorem transition_from_other_action (J : Json) (now timestamp : datetime)
    (new_state : climate.State) (w : climate.Hass) (last : string) (st : store.Store) :
  climate._last_hvac_action (climate.entity w) = Some last ->
  last <> "" ->
  last <> climate.HVACAction_HEATING ->
  last <> climate.HVACAction_COOLING ->
  climate._last_action_timestamp (climate.entity w) = Some timestamp ->
  climate.attr_hvac_action new_state <> Some last ->
  climate._store (climate.entity w) = Some st ->
  fst (climate.update_runtime_at now new_state w) = Returned tt
  /\ forall day,
       default climate.new_entry
         (climate._runtime_data
            (climate.entity (snd (climate.update_runtime_at now new_state w))) !! day)
       = default climate.new_entry (climate._runtime_data (climate.entity w) !! day).
Proof.
  intros Hlast Hne Hheat Hcool Hts Hdiff Hst.
  rewrite (update_runtime_at_transition now timestamp new_state w last st
             Hlast Hne Hts Hdiff Hst).
  cbn [fst snd climate.entity climate.set_entity climate._runtime_data
       climate.set_last climate.set_runtime_data].
  split; [reflexivity|].
  intros day. apply accrue_other; assumption.
Qed.

(** The theorem at idle since 07:00, heating at 08:00. *)
Lemma transition_from_other_action_witness :
  let w := example_world
             (example_entity (example_state "heat" (Some 19%Q) (Some "idle"))
                (Some 15%Q) (Some 30%Q) false None
                (Some "idle") (Some (monday_at 7 0))) in
  let heating := example_state "heat" (Some 18%Q) (Some "heating") in
  fst (climate.update_runtime_at (monday_at 8 0) heating w) = Returned tt
  /\ forall day,
       default climate.new_entry
         (climate._runtime_data
            (climate.entity (snd (climate.update_runtime_at (monday_at 8 0) heating w)))
          !! day)
       = default climate.new_entry (climate._runtime_data (climate.entity w) !! day).
Proof.
  intros w heating.
  apply (transition_from_other_action items_json (monday_at 8 0) (monday_at 7 0) heating w
           "idle" {| store._storage_path := ".storage/runtime"; store._data := ∅ |});
    try reflexivity; discriminate.
Defined.
